(** * The VirtualRouter controller (package virtualroutermanager)

    A shallow embedding of the reconciliation controller of
    [internal/daemon/netlink/config.go]: the event handlers registered by
    [NewController], the worker step [processNextWorkItem], the reconciler
    [syncHandler] with its four [ensure...] helpers, the status projection
    [updateVirtualRouterStatus] and the desired-state projection
    [newDeployment].

    The controller talks to its collaborators (listers, clientsets, work
    queue, event recorder) through Go interfaces.  Here every such call is a
    [Request] answered by an arbitrary server function; the controller code
    runs in a small monad that threads the server state and the heap of
    VirtualRouter objects, and produces the chronological list of calls and
    log lines it made.  The properties are proved for every server; the
    scenarios at the end run the controller on an in-memory store. *)

From Stdlib Require Import ZArith Ascii String List.
From stdpp Require Import base option list strings gmap.

Local Open Scope string_scope.
Local Open Scope list_scope.

(** ** Kubernetes API objects

    Only the fields the controller reads or writes are kept.  A Go pointer
    field that may be nil is an [option]; a Go [map[string]string] is a
    [gmap string string]; [int32] values are integers (the controller only
    copies and compares them). *)

Module GroupVersion.
Record t := mk { Group : string; Version : string }.
(** schema.GroupVersion.String *)
Definition String (gv : t) : string :=
  if decide (Group gv = EmptyString) then Version gv else Group gv +:+ "/" +:+ Version gv.
End GroupVersion.

Module OwnerReference.
Record t := mk {
  APIVersion : string;
  Kind : string;
  Name : string;
  UID : string;
  Controller : option bool;
  BlockOwnerDeletion : option bool }.
End OwnerReference.

Module ObjectMeta.
Record t := mk {
  Name : string;
  Namespace : string;
  UID : string;
  ResourceVersion : string;
  SelfLink : string;
  Labels : gmap string string;
  Annotations : gmap string string;
  Finalizers : list string;
  OwnerReferences : list OwnerReference.t }.
End ObjectMeta.

(** corev1.Affinity is passed through by the controller and never inspected:
    its three terms are kept as uninterpreted serialised values. *)
Module Affinity.
Record t := mk {
  NodeAffinity : option string;
  PodAffinity : option string;
  PodAntiAffinity : option string }.
End Affinity.

(** Modelled from the spec: the VirtualRouter API type, whose Go declaration
    is in the generated API package and not in the controller's file.  The
    fields are those of the intent object of the design (name and namespace
    in the metadata; deploymentName, optional replicas, image, nodeSelector,
    affinity; status availableReplicas), with the Go types the controller's
    code requires of them: replicas is a pointer, nodeSelector a sequence of
    key/value entries that newDeployment ranges over. *)
Module NodeSelector.
Record t := mk { Key : string; Value : string }.
End NodeSelector.

Module VirtualRouterSpec.
Record t := mk {
  DeploymentName : string;
  Replicas : option Z;
  Image : string;
  NodeSelector : list NodeSelector.t;
  Affinity : Affinity.t }.
End VirtualRouterSpec.

Module VirtualRouterStatus.
Record t := mk { AvailableReplicas : Z }.
End VirtualRouterStatus.

Module VirtualRouter.
Record t := mk {
  Meta : ObjectMeta.t;
  Spec : VirtualRouterSpec.t;
  Status : VirtualRouterStatus.t }.
Definition Name (vr : t) : string := ObjectMeta.Name (Meta vr).
Definition Namespace (vr : t) : string := ObjectMeta.Namespace (Meta vr).
Definition GetUID (vr : t) : string := ObjectMeta.UID (Meta vr).
End VirtualRouter.

Module EnvVar.
Record t := mk { Name : string; Value : string }.
End EnvVar.

Module Capabilities.
Record t := mk { Add : list string }.
End Capabilities.

Module SecurityContext.
Record t := mk {
  Capabilities : option Capabilities.t;
  Privileged : option bool }.
End SecurityContext.

Module Container.
Record t := mk {
  Name : string;
  Image : string;
  ImagePullPolicy : string;
  Env : list EnvVar.t;
  SecurityContext : option SecurityContext.t }.
End Container.

Module PodSpec.
Record t := mk {
  Affinity : option Affinity.t;
  ServiceAccountName : string;
  NodeSelector : gmap string string;
  Containers : list Container.t }.
End PodSpec.

Module PodTemplateSpec.
Record t := mk { Meta : ObjectMeta.t; Spec : PodSpec.t }.
End PodTemplateSpec.

Module LabelSelector.
Record t := mk { MatchLabels : gmap string string }.
End LabelSelector.

Module DeploymentSpec.
Record t := mk {
  Replicas : option Z;
  Selector : option LabelSelector.t;
  Template : PodTemplateSpec.t }.
End DeploymentSpec.

Module DeploymentStatus.
Record t := mk { AvailableReplicas : Z }.
End DeploymentStatus.

Module Deployment.
Record t := mk {
  Meta : ObjectMeta.t;
  Spec : DeploymentSpec.t;
  Status : DeploymentStatus.t }.
Definition Name (d : t) : string := ObjectMeta.Name (Meta d).
End Deployment.

Module Namespace.
Record t := mk { Meta : ObjectMeta.t }.
End Namespace.

Module ServiceAccount.
Record t := mk { Meta : ObjectMeta.t }.
End ServiceAccount.

Module PolicyRule.
Record t := mk {
  APIGroups : list string;
  Resources : list string;
  Verbs : list string }.
End PolicyRule.

Module Role.
Record t := mk { Meta : ObjectMeta.t; Rules : list PolicyRule.t }.
End Role.

Module RoleRef.
Record t := mk { APIGroup : string; Kind : string; Name : string }.
End RoleRef.

Module Subject.
Record t := mk { Kind : string; Name : string }.
End Subject.

Module RoleBinding.
Record t := mk {
  Meta : ObjectMeta.t;
  RoleRef : RoleRef.t;
  Subjects : list Subject.t }.
End RoleBinding.

(** ** Messages and errors

    Formatted messages keep their format string and arguments; nothing in
    the controller depends on the rendered characters. *)

#[local] Unset Elimination Schemes.
Inductive text :=
| Str (s : string)
| Int (z : Z)
| Sprintf (format : text) (args : list text).
#[local] Set Elimination Schemes.

(** metav1.StatusReason, as far as the controller distinguishes reasons. *)
Inductive StatusReason :=
| StatusReasonNotFound
| StatusReasonAlreadyExists
| StatusReasonConflict
| StatusReasonUnknown.

(** A Go [error]: an API status error of the store, or the result of
    [fmt.Errorf]. *)
Inductive error :=
| StatusError (reason : StatusReason) (message : string)
| Errorf (format : text) (args : list text).

(** err.Error() *)
Definition Error (e : error) : text :=
  match e with
  | StatusError _ message => Str message
  | Errorf format args => Sprintf format args
  end.

(** errors.IsNotFound, on a non-nil error. *)
Definition IsNotFound (e : error) : bool :=
  match e with
  | StatusError StatusReasonNotFound _ => true
  | _ => false
  end.

(** A Go result pair [(value, err)]: the value when [err == nil]. *)
Inductive result (A : Type) :=
| Ok (a : A)
| Err (e : error).
Arguments Ok {A} a.
Arguments Err {A} e.

(** ** Constants of the package *)

Definition controllerAgentName := "virtual-router".
Definition SERVICE_ACCOUNT_NAME := "virtualrouter-sa".
Definition ROLE_NAME := "virtualrouter-role".
Definition ROLE_BINDING_NAME := "virtualrouter-rb".
Definition VIRTUALROUTER_LABEL := "virtualrouterInstance".
Definition VIRTUALROUTER_DAEMON_FINALIZER := "virtualrouter/daemon-finalizer".
Definition SuccessSynced := "Synced".
Definition ErrResourceExists := "ErrResourceExists".
Definition MessageResourceExists :=
  "Resource %q already exists and is not managed by VirtualRouter".
Definition MessageResourceSynced := "VirtualRouter synced successfully".
Definition networkGroupName := "network.tmaxanc.com".
Definition EventTypeNormal := "Normal".
Definition EventTypeWarning := "Warning".
(** rbac_v1.SchemeGroupVersion.Group *)
Definition rbac_v1_GroupName := "rbac.authorization.k8s.io".

(** ** Helpers of apimachinery and client-go used by the controller *)

(** metav1.NewControllerRef *)
Definition NewControllerRef (owner : VirtualRouter.t) (gv : GroupVersion.t)
    (kind : string) : OwnerReference.t :=
  {| OwnerReference.APIVersion := GroupVersion.String gv;
     OwnerReference.Kind := kind;
     OwnerReference.Name := VirtualRouter.Name owner;
     OwnerReference.UID := VirtualRouter.GetUID owner;
     OwnerReference.Controller := Some true;
     OwnerReference.BlockOwnerDeletion := Some true |}.

(** metav1.GetControllerOf: the first owner reference whose Controller
    pointer is set and true. *)
Fixpoint GetControllerOf (refs : list OwnerReference.t) : option OwnerReference.t :=
  match refs with
  | [] => None
  | ref :: rest =>
      match OwnerReference.Controller ref with
      | Some true => Some ref
      | _ => GetControllerOf rest
      end
  end.

(** metav1.IsControlledBy, on the object's metadata and the owner's UID. *)
Definition IsControlledBy (obj : ObjectMeta.t) (owner : VirtualRouter.t) : bool :=
  match GetControllerOf (ObjectMeta.OwnerReferences obj) with
  | None => false
  | Some ref => bool_decide (OwnerReference.UID ref = VirtualRouter.GetUID owner)
  end.

(** strings.Split(s, "/") *)
Fixpoint Split (s : string) : list string :=
  match s with
  | EmptyString => [EmptyString]
  | String c rest =>
      if Ascii.eqb c "/"%char then EmptyString :: Split rest
      else match Split rest with
           | h :: t => String c h :: t
           | [] => [String c EmptyString]
           end
  end.

(** cache.SplitMetaNamespaceKey *)
Definition SplitMetaNamespaceKey (key : string) : result (string * string) :=
  match Split key with
  | [name] => Ok (EmptyString, name)
  | [namespace; name] => Ok (namespace, name)
  | _ => Err (Errorf (Str "unexpected key format: %q") [Str key])
  end.

(** What an informer or the work queue hands over as [interface{}]. *)
Inductive object :=
| ObjVirtualRouter (vr : VirtualRouter.t)
| ObjDeployment (d : Deployment.t)
| ObjDeletedFinalStateUnknown (key : string) (obj : object)
| ObjString (s : string)
| ObjOther (repr : string).

(** The metav1.Object view of an object: [obj.(metav1.Object)]. *)
Definition asMetaObject (obj : object) : option ObjectMeta.t :=
  match obj with
  | ObjVirtualRouter vr => Some (VirtualRouter.Meta vr)
  | ObjDeployment d => Some (Deployment.Meta d)
  | _ => None
  end.

(** cache.MetaNamespaceKeyFunc, for objects that are not explicit keys. *)
Definition MetaNamespaceKeyFunc (obj : object) : result string :=
  match asMetaObject obj with
  | None => Err (Errorf (Str "object has no meta: %v") [Str "object does not implement the Object interfaces"])
  | Some meta =>
      if decide (ObjectMeta.Namespace meta = EmptyString) then Ok (ObjectMeta.Name meta)
      else Ok (ObjectMeta.Namespace meta +:+ "/" +:+ ObjectMeta.Name meta)
  end.

(** ** Calls to the external collaborators

    One constructor per method the controller invokes on its listers
    (informer caches), on the two clientsets, on the event recorder and on
    the work queue. *)

Inductive Request :=
(* virtualRoutersLister, deploymentsLister *)
| ListerGetVirtualRouter (namespace name : string)
| ListerGetDeployment (namespace name : string)
(* kubeclientset *)
| GetNamespace (name : string)
| CreateNamespace (obj : Namespace.t)
| GetServiceAccount (namespace name : string)
| CreateServiceAccount (namespace : string) (obj : ServiceAccount.t)
| GetRole (namespace name : string)
| CreateRole (namespace : string) (obj : Role.t)
| GetRoleBinding (namespace name : string)
| CreateRoleBinding (namespace : string) (obj : RoleBinding.t)
| CreateDeployment (namespace : string) (obj : Deployment.t)
| UpdateDeployment (namespace : string) (obj : Deployment.t)
(* sampleclientset *)
| UpdateVirtualRouter (namespace : string) (obj : VirtualRouter.t)
(* recorder *)
| RecordEvent (subject : VirtualRouter.t) (eventtype reason : string) (message : text)
(* workqueue *)
| QueueGet
| QueueDone (item : object)
| QueueForget (item : object)
| QueueAdd (item : object)
| QueueAddRateLimited (item : object).

(** The Go result type of each call. *)
Definition Resp (r : Request) : Type :=
  match r with
  | ListerGetVirtualRouter _ _ => result VirtualRouter.t
  | ListerGetDeployment _ _ => result Deployment.t
  | GetNamespace _ | CreateNamespace _ => result Namespace.t
  | GetServiceAccount _ _ | CreateServiceAccount _ _ => result ServiceAccount.t
  | GetRole _ _ | CreateRole _ _ => result Role.t
  | GetRoleBinding _ _ | CreateRoleBinding _ _ => result RoleBinding.t
  | CreateDeployment _ _ | UpdateDeployment _ _ => result Deployment.t
  | UpdateVirtualRouter _ _ => result VirtualRouter.t
  | RecordEvent _ _ _ _ => unit
  | QueueGet => (object * bool)%type
  | QueueDone _ | QueueForget _ | QueueAdd _ | QueueAddRateLimited _ => unit
  end.

(** The write calls of the Resource Store API: Create and Update. *)
Definition is_write (r : Request) : bool :=
  match r with
  | CreateNamespace _ | CreateServiceAccount _ _ | CreateRole _ _
  | CreateRoleBinding _ _ | CreateDeployment _ _ | UpdateDeployment _ _
  | UpdateVirtualRouter _ _ => true
  | _ => false
  end.

(** Log lines: utilruntime.HandleError and klog at a verbosity. *)
Inductive logline :=
| HandleError (e : error)
| KlogInfo (verbosity : nat) (msg : text)
| KlogError (msg : text).

(** What a run leaves behind, in order: the calls with their answers, and
    the log lines. *)
Inductive entry :=
| Call (r : Request) (answer : Resp r)
| Log (l : logline).

Definition request_of (e : entry) : option Request :=
  match e with
  | Call r _ => Some r
  | Log _ => None
  end.

(** The requests of a trace that satisfy a test, in order. *)
Definition select (p : Request -> bool) (e : entry) : option Request :=
  match e with
  | Call r _ => if p r then Some r else None
  | Log _ => None
  end.

Definition requests (tr : list entry) : list Request := omap request_of tr.
(** The write calls of a trace. *)
Definition writes (tr : list entry) : list Request := omap (select is_write) tr.

(** ** The heap of VirtualRouter objects

    The lister hands out a pointer to the object held by the informer cache;
    [DeepCopy] allocates a fresh object.  Each cell records which of the two
    it is. *)

Inductive origin := Cached | Copied.
Definition loc := nat.
Abbreviation Heap := (list (origin * VirtualRouter.t)).

Inductive outcome (A : Type) :=
| Val (a : A)
| Panic (reason : string).
Arguments Val {A} a.
Arguments Panic {A} reason.

Definition nilDereference := "invalid memory address or nil pointer dereference".
Definition badTypeAssertion := "interface conversion".

(** ** The monad of controller code

    A computation takes the state of the external server and the heap, and
    returns its outcome, the new state and the entries it produced. *)

Record World (S : Type) := mkWorld { server : S; heap : Heap }.
Arguments mkWorld {S} server heap.
Arguments server {S} w.
Arguments heap {S} w.

Definition M (S A : Type) : Type := World S -> outcome A * World S * list entry.

Definition ret {S A} (a : A) : M S A := fun w => (Val a, w, []).

Definition bind {S A B} (m : M S A) (k : A -> M S B) : M S B :=
  fun w =>
    match m w with
    | (Val a, w1, t1) => let '(o, w2, t2) := k a w1 in (o, w2, t1 ++ t2)
    | (Panic reason, w1, t1) => (Panic reason, w1, t1)
    end.

Declare Scope go_scope.
Delimit Scope go_scope with go.
Notation "x <- m ;; k" := (bind m (fun x => k))
  (at level 100, m at next level, right associativity) : go_scope.
Notation "m ;; k" := (bind m (fun _ => k))
  (at level 100, right associativity) : go_scope.
Local Open Scope go_scope.

Definition panic {S A} (reason : string) : M S A := fun w => (Panic reason, w, []).

Definition log {S} (l : logline) : M S unit := fun w => (Val tt, w, [Log l]).

(** [defer deferred body]: the deferred call runs when the body ends, whether
    it returned or panicked; the panic, if any, goes on afterwards. *)
Definition defer {S A} (deferred : M S unit) (body : M S A) : M S A :=
  fun w =>
    let '(o, w1, t1) := body w in
    let '(o', w2, t2) := deferred w1 in
    (match o' with Panic reason => Panic reason | Val _ => o end, w2, t1 ++ t2).

(** Allocation of a VirtualRouter object, and access through a pointer. *)
Definition new {S} (o : origin) (vr : VirtualRouter.t) : M S loc :=
  fun w => (Val (length (heap w)), mkWorld (server w) (heap w ++ [(o, vr)]), []).

Definition load {S} (p : loc) : M S VirtualRouter.t :=
  fun w =>
    match heap w !! p with
    | Some (_, vr) => (Val vr, w, [])
    | None => (Panic nilDereference, w, [])
    end.

Definition assign {S} (p : loc) (f : VirtualRouter.t -> VirtualRouter.t) : M S unit :=
  fun w =>
    match heap w !! p with
    | Some (o, vr) => (Val tt, mkWorld (server w) (<[p := (o, f vr)]> (heap w)), [])
    | None => (Panic nilDereference, w, [])
    end.

(** virtualRouter.DeepCopy() *)
Definition DeepCopy {S} (p : loc) : M S loc :=
  vr <- load p ;; new Copied vr.

(** The assignment [vr.Status.AvailableReplicas = n]. *)
Definition set_AvailableReplicas (n : Z) (vr : VirtualRouter.t) : VirtualRouter.t :=
  {| VirtualRouter.Meta := VirtualRouter.Meta vr;
     VirtualRouter.Spec := VirtualRouter.Spec vr;
     VirtualRouter.Status := {| VirtualRouterStatus.AvailableReplicas := n |} |}.

(** The error of a result pair, [nil] as [None]. *)
Definition err_of {A} (r : result A) : option error :=
  match r with
  | Ok _ => None
  | Err e => Some e
  end.

(** ** The controller *)

Section Controller.

Context {S : Type}.
(** The collaborators behind the Controller's fields. *)
Variable serve : forall r : Request, S -> Resp r * S.
(** samplev1alpha1.SchemeGroupVersion and virtualrouter.GroupName, declared
    in packages outside this one. *)
Variable SchemeGroupVersion : GroupVersion.t.
Variable virtualrouter_GroupName : string.

Definition call (r : Request) : M S (Resp r) :=
  fun w =>
    let '(answer, s) := serve r (server w) in
    (Val answer, mkWorld s (heap w), [Call r answer]).

(** c.virtualRoutersLister.VirtualRouters(namespace).Get(name): a pointer to
    the object of the informer cache. *)
Definition virtualRoutersLister_Get (namespace name : string) : M S (result loc) :=
  r <- call (ListerGetVirtualRouter namespace name) ;;
  match r with
  | Ok vr => p <- new Cached vr ;; ret (Ok p)
  | Err e => ret (Err e)
  end.

(** The owner reference every created object carries:
    [*metav1.NewControllerRef(virtualRouter, SchemeGroupVersion.WithKind("VirtualRouter"))]. *)
Definition controllerRef (vr : VirtualRouter.t) : OwnerReference.t :=
  NewControllerRef vr SchemeGroupVersion "VirtualRouter".

(** newDeployment *)
Definition newDeployment (newNS : string) (virtualRouter : VirtualRouter.t) : Deployment.t :=
  let labels : gmap string string := {[ "app" := VIRTUALROUTER_LABEL ]} in
  let nodeSelectorMap : gmap string string :=
    foldl (fun m nodeSelector =>
             <[ NodeSelector.Key nodeSelector := NodeSelector.Value nodeSelector ]> m)
          ∅ (VirtualRouterSpec.NodeSelector (VirtualRouter.Spec virtualRouter)) in
  {| Deployment.Meta :=
       {| ObjectMeta.Name := VirtualRouterSpec.DeploymentName (VirtualRouter.Spec virtualRouter);
          ObjectMeta.Namespace := newNS;
          ObjectMeta.UID := EmptyString;
          ObjectMeta.ResourceVersion := EmptyString;
          ObjectMeta.SelfLink := EmptyString;
          ObjectMeta.Labels := ∅;
          ObjectMeta.Annotations := ∅;
          ObjectMeta.Finalizers := [];
          ObjectMeta.OwnerReferences := [controllerRef virtualRouter] |};
     Deployment.Spec :=
       {| DeploymentSpec.Replicas := VirtualRouterSpec.Replicas (VirtualRouter.Spec virtualRouter);
          DeploymentSpec.Selector := Some {| LabelSelector.MatchLabels := labels |};
          DeploymentSpec.Template :=
            {| PodTemplateSpec.Meta :=
                 {| ObjectMeta.Name := EmptyString;
                    ObjectMeta.Namespace := EmptyString;
                    ObjectMeta.UID := EmptyString;
                    ObjectMeta.ResourceVersion := EmptyString;
                    ObjectMeta.SelfLink := EmptyString;
                    ObjectMeta.Labels := labels;
                    ObjectMeta.Annotations :=
                      <[ "customresourceNamespace" := VirtualRouter.Namespace virtualRouter ]>
                        {[ "customresourceName" := VirtualRouter.Name virtualRouter ]};
                    ObjectMeta.Finalizers := [VIRTUALROUTER_DAEMON_FINALIZER];
                    ObjectMeta.OwnerReferences := [] |};
               PodTemplateSpec.Spec :=
                 {| PodSpec.Affinity := Some (VirtualRouterSpec.Affinity (VirtualRouter.Spec virtualRouter));
                    PodSpec.ServiceAccountName := "virtualrouter-sa";
                    PodSpec.NodeSelector := nodeSelectorMap;
                    PodSpec.Containers :=
                      [ {| Container.Name := VirtualRouter.Name virtualRouter;
                           Container.Image := VirtualRouterSpec.Image (VirtualRouter.Spec virtualRouter);
                           Container.ImagePullPolicy := "Always";
                           Container.Env :=
                             [ {| EnvVar.Name := "POD_NAMESPACE"; EnvVar.Value := newNS |} ];
                           Container.SecurityContext :=
                             Some {| SecurityContext.Capabilities :=
                                       Some {| Capabilities.Add := ["NET_RAW"; "NET_ADMIN"; "SYS_ADMIN"] |};
                                     SecurityContext.Privileged := Some true |} |} ] |} |} |};
     Deployment.Status := {| DeploymentStatus.AvailableReplicas := 0 |} |}.

(** The metadata of a supporting object: name, namespace, owner reference. *)
Definition ownedMeta (name namespace : string) (virtualRouter : VirtualRouter.t) : ObjectMeta.t :=
  {| ObjectMeta.Name := name;
     ObjectMeta.Namespace := namespace;
     ObjectMeta.UID := EmptyString;
     ObjectMeta.ResourceVersion := EmptyString;
     ObjectMeta.SelfLink := EmptyString;
     ObjectMeta.Labels := ∅;
     ObjectMeta.Annotations := ∅;
     ObjectMeta.Finalizers := [];
     ObjectMeta.OwnerReferences := [controllerRef virtualRouter] |}.

(** The objects the four ensure functions create. *)
Definition serviceAccountFor (newNS : string) (virtualRouter : VirtualRouter.t) : ServiceAccount.t :=
  {| ServiceAccount.Meta := ownedMeta SERVICE_ACCOUNT_NAME newNS virtualRouter |}.

Definition roleFor (newNS : string) (virtualRouter : VirtualRouter.t) : Role.t :=
  {| Role.Meta := ownedMeta ROLE_NAME newNS virtualRouter;
     Role.Rules :=
       [ {| PolicyRule.APIGroups := [virtualrouter_GroupName];
            PolicyRule.Resources := ["natrules"; "firewallrules"; "loadbalancerrules"];
            PolicyRule.Verbs := ["get"; "list"; "watch"; "create"; "update"; "patch"; "delete"] |};
         {| PolicyRule.APIGroups := [networkGroupName];
            PolicyRule.Resources := ["vpns"];
            PolicyRule.Verbs := ["get"; "list"; "watch"] |} ] |}.

Definition roleBindingFor (newNS : string) (virtualRouter : VirtualRouter.t) : RoleBinding.t :=
  {| RoleBinding.Meta := ownedMeta ROLE_BINDING_NAME newNS virtualRouter;
     RoleBinding.RoleRef :=
       {| RoleRef.APIGroup := rbac_v1_GroupName; RoleRef.Kind := "Role"; RoleRef.Name := ROLE_NAME |};
     RoleBinding.Subjects :=
       [ {| Subject.Kind := "ServiceAccount"; Subject.Name := SERVICE_ACCOUNT_NAME |} ] |}.

Definition namespaceFor (newNS : string) (virtualRouter : VirtualRouter.t) : Namespace.t :=
  {| Namespace.Meta := ownedMeta newNS EmptyString virtualRouter |}.

(** ensureVirtualRouterSA *)
Definition ensureVirtualRouterSA (newNS : string) (virtualRouter : loc) : M S (option error) :=
  r <- call (GetServiceAccount newNS SERVICE_ACCOUNT_NAME) ;;
  match r with
  | Ok _ => ret None
  | Err err =>
      if negb (IsNotFound err) then
        log (KlogError (Error err)) ;; ret (Some err)
      else
        vr <- load virtualRouter ;;
        r' <- call (CreateServiceAccount newNS (serviceAccountFor newNS vr)) ;;
        match r' with
        | Ok _ => ret None
        | Err err' => log (KlogError (Error err')) ;; ret (Some err')
        end
  end.

(** ensureVirtualRouterRole *)
Definition ensureVirtualRouterRole (newNS : string) (virtualRouter : loc) : M S (option error) :=
  r <- call (GetRole newNS ROLE_NAME) ;;
  match r with
  | Ok _ => ret None
  | Err err =>
      if negb (IsNotFound err) then
        log (KlogError (Error err)) ;; ret (Some err)
      else
        vr <- load virtualRouter ;;
        r' <- call (CreateRole newNS (roleFor newNS vr)) ;;
        match r' with
        | Ok _ => ret None
        | Err err' => log (KlogError (Error err')) ;; ret (Some err')
        end
  end.

(** ensureVirtualRouterRoleBinding *)
Definition ensureVirtualRouterRoleBinding (newNS : string) (virtualRouter : loc) : M S (option error) :=
  r <- call (GetRoleBinding newNS ROLE_BINDING_NAME) ;;
  match r with
  | Ok _ => ret None
  | Err err =>
      if negb (IsNotFound err) then
        log (KlogError (Error err)) ;; ret (Some err)
      else
        vr <- load virtualRouter ;;
        r' <- call (CreateRoleBinding newNS (roleBindingFor newNS vr)) ;;
        match r' with
        | Ok _ => ret None
        | Err err' => log (KlogError (Error err')) ;; ret (Some err')
        end
  end.

(** ensureVirtualRouterNamespace *)
Definition ensureVirtualRouterNamespace (newNS : string) (virtualRouter : loc) : M S (option error) :=
  r <- call (GetNamespace newNS) ;;
  match r with
  | Ok _ => ret None
  | Err err =>
      if negb (IsNotFound err) then
        log (KlogError (Error err)) ;; ret (Some err)
      else
        vr <- load virtualRouter ;;
        r' <- call (CreateNamespace (namespaceFor newNS vr)) ;;
        match r' with
        | Ok _ => ret None
        | Err err' => log (KlogError (Error err')) ;; ret (Some err')
        end
  end.

(** updateVirtualRouterStatus *)
Definition updateVirtualRouterStatus (virtualRouter : loc) (deployment : Deployment.t)
    : M S (option error) :=
  virtualRouterCopy <- DeepCopy virtualRouter ;;
  assign virtualRouterCopy
    (set_AvailableReplicas (DeploymentStatus.AvailableReplicas (Deployment.Status deployment))) ;;
  vr <- load virtualRouter ;;
  copy <- load virtualRouterCopy ;;
  r <- call (UpdateVirtualRouter (VirtualRouter.Namespace vr) copy) ;;
  ret (err_of r).

(** syncHandler *)
Definition syncHandler (key : string) : M S (option error) :=
  log (KlogInfo 0 (Str key)) ;;
  match SplitMetaNamespaceKey key with
  | Err _ =>
      log (HandleError (Errorf (Str "invalid resource key: %s") [Str key])) ;;
      ret None
  | Ok (namespace, name) =>
      r <- virtualRoutersLister_Get namespace name ;;
      match r with
      | Err err =>
          if IsNotFound err then
            log (HandleError (Errorf (Str "virtualRouter '%s' in work queue no longer exists") [Str key])) ;;
            ret None
          else ret (Some err)
      | Ok virtualRouter =>
          vr <- load virtualRouter ;;
          let deploymentName := VirtualRouterSpec.DeploymentName (VirtualRouter.Spec vr) in
          if decide (deploymentName = EmptyString) then
            log (HandleError (Errorf (Str "%s: deployment name must be specified") [Str key])) ;;
            ret None
          else
            vr <- load virtualRouter ;;
            let newNS := VirtualRouter.Name vr in
            e <- ensureVirtualRouterNamespace newNS virtualRouter ;;
            match e with
            | Some err => log (KlogError (Error err)) ;; ret (Some err)
            | None =>
            e <- ensureVirtualRouterSA newNS virtualRouter ;;
            match e with
            | Some err => log (KlogError (Error err)) ;; ret (Some err)
            | None =>
            e <- ensureVirtualRouterRole newNS virtualRouter ;;
            match e with
            | Some err => log (KlogError (Error err)) ;; ret (Some err)
            | None =>
            e <- ensureVirtualRouterRoleBinding newNS virtualRouter ;;
            match e with
            | Some err => log (KlogError (Error err)) ;; ret (Some err)
            | None =>
            r <- call (ListerGetDeployment newNS deploymentName) ;;
            r <- match r with
                 | Err err =>
                     if IsNotFound err then
                       log (KlogInfo 0 (Str "NotFound Deploy start")) ;;
                       vr <- load virtualRouter ;;
                       call (CreateDeployment newNS (newDeployment newNS vr))
                     else ret (Err err)
                 | Ok deployment => ret (Ok deployment)
                 end ;;
            match r with
            | Err err => ret (Some err)
            | Ok deployment =>
            vr <- load virtualRouter ;;
            if negb (IsControlledBy (Deployment.Meta deployment) vr) then
              let msg := Sprintf (Str MessageResourceExists) [Str (Deployment.Name deployment)] in
              call (RecordEvent vr EventTypeWarning ErrResourceExists msg) ;;
              ret (Some (Errorf msg []))
            else
              vr <- load virtualRouter ;;
              r <- match VirtualRouterSpec.Replicas (VirtualRouter.Spec vr) with
                   | None => ret (Ok deployment)
                   | Some wanted =>
                       match DeploymentSpec.Replicas (Deployment.Spec deployment) with
                       | None => panic nilDereference
                       | Some current =>
                           if decide (wanted ≠ current) then
                             log (KlogInfo 4 (Sprintf (Str "VirtualRouter %s replicas: %d, deployment replicas: %d")
                                                [Str name; Int wanted; Int current])) ;;
                             vr <- load virtualRouter ;;
                             call (UpdateDeployment newNS (newDeployment newNS vr))
                           else ret (Ok deployment)
                       end
                   end ;;
              match r with
              | Err err => ret (Some err)
              | Ok deployment =>
                  e <- updateVirtualRouterStatus virtualRouter deployment ;;
                  match e with
                  | Some err => ret (Some err)
                  | None =>
                      vr <- load virtualRouter ;;
                      call (RecordEvent vr EventTypeNormal SuccessSynced (Str MessageResourceSynced)) ;;
                      ret None
                  end
              end
            end end end end end
      end
  end.

(** enqueueVirtualRouter *)
Definition enqueueVirtualRouter (obj : object) : M S unit :=
  match MetaNamespaceKeyFunc obj with
  | Err err => log (HandleError err)
  | Ok key => call (QueueAdd (ObjString key))
  end.

(** handleObject *)
Definition handleObject (obj : object) : M S unit :=
  let decoded : result (M S unit * ObjectMeta.t) :=
    match asMetaObject obj with
    | Some object => Ok (ret tt, object)
    | None =>
        match obj with
        | ObjDeletedFinalStateUnknown _ inner =>
            match asMetaObject inner with
            | Some object =>
                Ok (log (KlogInfo 4 (Sprintf (Str "Recovered deleted object '%s' from tombstone")
                                       [Str (ObjectMeta.Name object)])), object)
            | None => Err (Errorf (Str "error decoding object tombstone, invalid type") [])
            end
        | _ => Err (Errorf (Str "error decoding object, invalid type") [])
        end
    end in
  match decoded with
  | Err err => log (HandleError err)
  | Ok (recovered, object) =>
      recovered ;;
      log (KlogInfo 4 (Sprintf (Str "Processing object: %s") [Str (ObjectMeta.Name object)])) ;;
      match GetControllerOf (ObjectMeta.OwnerReferences object) with
      | None => ret tt
      | Some ownerRef =>
          if negb (bool_decide (OwnerReference.Kind ownerRef = "VirtualRouter")) then ret tt
          else
            r <- virtualRoutersLister_Get (ObjectMeta.Namespace object) (OwnerReference.Name ownerRef) ;;
            match r with
            | Err _ =>
                log (KlogInfo 4 (Sprintf (Str "ignoring orphaned object '%s' of virtualRouter '%s'")
                       [Str (ObjectMeta.SelfLink object); Str (OwnerReference.Name ownerRef)]))
            | Ok virtualRouter =>
                vr <- load virtualRouter ;;
                enqueueVirtualRouter (ObjVirtualRouter vr)
            end
      end
  end.

(** The event handlers registered by NewController on the VirtualRouter
    informer ... *)
Definition virtualRouter_AddFunc (obj : object) : M S unit := enqueueVirtualRouter obj.

Definition virtualRouter_UpdateFunc (old new : object) : M S unit := enqueueVirtualRouter new.

(** ... and on the Deployment informer. *)
Definition deployment_AddFunc (obj : object) : M S unit := handleObject obj.

Definition deployment_UpdateFunc (old new : object) : M S unit :=
  match new with
  | ObjDeployment newDepl =>
      match old with
      | ObjDeployment oldDepl =>
          if decide (ObjectMeta.ResourceVersion (Deployment.Meta newDepl)
                     = ObjectMeta.ResourceVersion (Deployment.Meta oldDepl))
          then ret tt
          else handleObject new
      | _ => panic badTypeAssertion
      end
  | _ => panic badTypeAssertion
  end.

Definition deployment_DeleteFunc (obj : object) : M S unit := handleObject obj.

(** processNextWorkItem *)
Definition processNextWorkItem : M S bool :=
  got <- call QueueGet ;;
  let '(obj, shutdown) := got in
  if shutdown : bool then ret false
  else
    err <- defer (call (QueueDone obj))
             (match obj with
              | ObjString key =>
                  e <- syncHandler key ;;
                  match e with
                  | Some err =>
                      call (QueueAddRateLimited (ObjString key)) ;;
                      ret (Some (Errorf (Str "error syncing '%s': %s, requeuing") [Str key; Error err]))
                  | None =>
                      call (QueueForget obj) ;;
                      log (KlogInfo 0 (Sprintf (Str "Successfully synced '%s'") [Str key])) ;;
                      ret None
                  end
              | _ =>
                  call (QueueForget obj) ;;
                  log (HandleError (Errorf (Str "expected string in workqueue but got %#v") [Str "<item>"])) ;;
                  ret None
              end) ;;
    match err with
    | Some err => log (HandleError err) ;; ret true
    | None => ret true
    end.

(** runWorker: [for c.processNextWorkItem() {}], cut after [fuel] rounds.
    The result tells whether the loop ended by itself. *)
Fixpoint runWorker (fuel : nat) : M S bool :=
  match fuel with
  | O => ret false
  | Datatypes.S fuel' =>
      continue <- processNextWorkItem ;;
      if continue : bool then runWorker fuel' else ret true
  end.

End Controller.

(** ** An in-memory store

    A server that keeps every object as it was written, keyed by namespace
    and name, in the manner of the fake clientset used to test controllers:
    Get answers NotFound for a missing key, Create refuses an existing key,
    Update refuses a missing one.  The listers read the same maps.  The work
    queue is a plain list, reported as shut down once empty. *)

Module Fake.

Record t := mk {
  namespaces : gmap string Namespace.t;
  serviceAccounts : gmap (string * string) ServiceAccount.t;
  roles : gmap (string * string) Role.t;
  roleBindings : gmap (string * string) RoleBinding.t;
  deployments : gmap (string * string) Deployment.t;
  virtualRouters : gmap (string * string) VirtualRouter.t;
  queue : list object }.

Definition empty : t :=
  {| namespaces := ∅; serviceAccounts := ∅; roles := ∅; roleBindings := ∅;
     deployments := ∅; virtualRouters := ∅; queue := [] |}.

Definition notFound {A} (name : string) : result A :=
  Err (StatusError StatusReasonNotFound name).
Definition alreadyExists {A} (name : string) : result A :=
  Err (StatusError StatusReasonAlreadyExists name).

Definition get {K A} `{Countable K} (m : gmap K A) (k : K) (name : string) : result A :=
  match m !! k with
  | Some a => Ok a
  | None => notFound name
  end.

Definition with_namespaces (f : gmap string Namespace.t -> gmap string Namespace.t) (s : t) : t :=
  {| namespaces := f (namespaces s); serviceAccounts := serviceAccounts s; roles := roles s;
     roleBindings := roleBindings s; deployments := deployments s;
     virtualRouters := virtualRouters s; queue := queue s |}.
Definition with_serviceAccounts (f : gmap (string * string) ServiceAccount.t -> gmap (string * string) ServiceAccount.t) (s : t) : t :=
  {| namespaces := namespaces s; serviceAccounts := f (serviceAccounts s); roles := roles s;
     roleBindings := roleBindings s; deployments := deployments s;
     virtualRouters := virtualRouters s; queue := queue s |}.
Definition with_roles (f : gmap (string * string) Role.t -> gmap (string * string) Role.t) (s : t) : t :=
  {| namespaces := namespaces s; serviceAccounts := serviceAccounts s; roles := f (roles s);
     roleBindings := roleBindings s; deployments := deployments s;
     virtualRouters := virtualRouters s; queue := queue s |}.
Definition with_roleBindings (f : gmap (string * string) RoleBinding.t -> gmap (string * string) RoleBinding.t) (s : t) : t :=
  {| namespaces := namespaces s; serviceAccounts := serviceAccounts s; roles := roles s;
     roleBindings := f (roleBindings s); deployments := deployments s;
     virtualRouters := virtualRouters s; queue := queue s |}.
Definition with_deployments (f : gmap (string * string) Deployment.t -> gmap (string * string) Deployment.t) (s : t) : t :=
  {| namespaces := namespaces s; serviceAccounts := serviceAccounts s; roles := roles s;
     roleBindings := roleBindings s; deployments := f (deployments s);
     virtualRouters := virtualRouters s; queue := queue s |}.
Definition with_virtualRouters (f : gmap (string * string) VirtualRouter.t -> gmap (string * string) VirtualRouter.t) (s : t) : t :=
  {| namespaces := namespaces s; serviceAccounts := serviceAccounts s; roles := roles s;
     roleBindings := roleBindings s; deployments := deployments s;
     virtualRouters := f (virtualRouters s); queue := queue s |}.
Definition with_queue (f : list object -> list object) (s : t) : t :=
  {| namespaces := namespaces s; serviceAccounts := serviceAccounts s; roles := roles s;
     roleBindings := roleBindings s; deployments := deployments s;
     virtualRouters := virtualRouters s; queue := f (queue s) |}.

(** Create: refuse an existing key, otherwise store the object as given. *)
Definition create {K A} `{Countable K} (m : gmap K A) (k : K) (name : string) (a : A)
    : result A * gmap K A :=
  match m !! k with
  | Some _ => (alreadyExists name, m)
  | None => (Ok a, <[k := a]> m)
  end.

(** Update: refuse a missing key, otherwise replace the object. *)
Definition update {K A} `{Countable K} (m : gmap K A) (k : K) (name : string) (a : A)
    : result A * gmap K A :=
  match m !! k with
  | Some _ => (Ok a, <[k := a]> m)
  | None => (notFound name, m)
  end.

Definition serve (r : Request) : t -> Resp r * t :=
  match r as r0 return t -> Resp r0 * t with
  | ListerGetVirtualRouter ns name => fun s => (get (virtualRouters s) (ns, name) name, s)
  | ListerGetDeployment ns name => fun s => (get (deployments s) (ns, name) name, s)
  | GetNamespace name => fun s => (get (namespaces s) name name, s)
  | CreateNamespace obj => fun s =>
      let name := ObjectMeta.Name (Namespace.Meta obj) in
      let '(a, m) := create (namespaces s) name name obj in
      (a, with_namespaces (fun _ => m) s)
  | GetServiceAccount ns name => fun s => (get (serviceAccounts s) (ns, name) name, s)
  | CreateServiceAccount ns obj => fun s =>
      let name := ObjectMeta.Name (ServiceAccount.Meta obj) in
      let '(a, m) := create (serviceAccounts s) (ns, name) name obj in
      (a, with_serviceAccounts (fun _ => m) s)
  | GetRole ns name => fun s => (get (roles s) (ns, name) name, s)
  | CreateRole ns obj => fun s =>
      let name := ObjectMeta.Name (Role.Meta obj) in
      let '(a, m) := create (roles s) (ns, name) name obj in
      (a, with_roles (fun _ => m) s)
  | GetRoleBinding ns name => fun s => (get (roleBindings s) (ns, name) name, s)
  | CreateRoleBinding ns obj => fun s =>
      let name := ObjectMeta.Name (RoleBinding.Meta obj) in
      let '(a, m) := create (roleBindings s) (ns, name) name obj in
      (a, with_roleBindings (fun _ => m) s)
  | CreateDeployment ns obj => fun s =>
      let name := ObjectMeta.Name (Deployment.Meta obj) in
      let '(a, m) := create (deployments s) (ns, name) name obj in
      (a, with_deployments (fun _ => m) s)
  | UpdateDeployment ns obj => fun s =>
      let name := ObjectMeta.Name (Deployment.Meta obj) in
      let '(a, m) := update (deployments s) (ns, name) name obj in
      (a, with_deployments (fun _ => m) s)
  | UpdateVirtualRouter ns obj => fun s =>
      let name := ObjectMeta.Name (VirtualRouter.Meta obj) in
      let '(a, m) := update (virtualRouters s) (ns, name) name obj in
      (a, with_virtualRouters (fun _ => m) s)
  | RecordEvent _ _ _ _ => fun s => (tt, s)
  | QueueGet => fun s =>
      match queue s with
      | [] => ((ObjString EmptyString, true), s)
      | item :: rest => ((item, false), with_queue (fun _ => rest) s)
      end
  | QueueDone _ => fun s => (tt, s)
  | QueueForget _ => fun s => (tt, s)
  | QueueAdd item => fun s => (tt, with_queue (fun q => q ++ [item]) s)
  | QueueAddRateLimited item => fun s => (tt, with_queue (fun q => q ++ [item]) s)
  end.

(** An outage: the calls selected by [down] fail with a transient error and
    leave the store as it is. *)
Definition unavailable {A} : result A := Err (StatusError StatusReasonUnknown "unavailable").

Definition during_outage (down : Request -> bool) (r : Request) : t -> Resp r * t :=
  match r as r0 return (t -> Resp r0 * t) -> t -> Resp r0 * t with
  | RecordEvent _ _ _ _ | QueueGet | QueueDone _ | QueueForget _ | QueueAdd _
  | QueueAddRateLimited _ => fun normal => normal
  | r0 => fun normal s => if down r0 then (unavailable, s) else normal s
  end (serve r).




End Fake.

(** The scheme constants used in the examples. *)
Definition exampleGroupVersion : GroupVersion.t :=
  {| GroupVersion.Group := "tmax.hypercloud.com"; GroupVersion.Version := "v1" |}.
Definition exampleGroupName := "virtualrouter.tmax.io".

Definition exampleMeta (namespace name uid : string) (refs : list OwnerReference.t) : ObjectMeta.t :=
  {| ObjectMeta.Name := name;
     ObjectMeta.Namespace := namespace;
     ObjectMeta.UID := uid;
     ObjectMeta.ResourceVersion := "1";
     ObjectMeta.SelfLink := EmptyString;
     ObjectMeta.Labels := ∅;
     ObjectMeta.Annotations := ∅;
     ObjectMeta.Finalizers := [];
     ObjectMeta.OwnerReferences := refs |}.

Definition noAffinity : Affinity.t :=
  {| Affinity.NodeAffinity := None; Affinity.PodAffinity := None; Affinity.PodAntiAffinity := None |}.

(** The intent of scenario A: VirtualRouter r1 in namespace default. *)
Definition r1 (deploymentName : string) (replicas : option Z) : VirtualRouter.t :=
  {| VirtualRouter.Meta := exampleMeta "default" "r1" "uid-r1" [];
     VirtualRouter.Spec :=
       {| VirtualRouterSpec.DeploymentName := deploymentName;
          VirtualRouterSpec.Replicas := replicas;
          VirtualRouterSpec.Image := "img:v1";
          VirtualRouterSpec.NodeSelector := [];
          VirtualRouterSpec.Affinity := noAffinity |};
     VirtualRouter.Status := {| VirtualRouterStatus.AvailableReplicas := 0 |} |}.

Definition storeWith (vr : VirtualRouter.t) : Fake.t :=
  Fake.with_virtualRouters
    (fun m => <[(VirtualRouter.Namespace vr, VirtualRouter.Name vr) := vr]> m) Fake.empty.

Definition exampleSync (key : string) : M Fake.t (option error) :=
  syncHandler Fake.serve exampleGroupVersion exampleGroupName key.

Definition start (s : Fake.t) : World Fake.t := mkWorld s [].

(** The store a run leaves behind. *)
Definition store_after {A} (run : outcome A * World Fake.t * list entry) : Fake.t :=
  server run.1.2.

(** The user edits the intent: the VirtualRouter in the store is replaced. *)
Definition edit (vr : VirtualRouter.t) (s : Fake.t) : Fake.t :=
  Fake.with_virtualRouters
    (fun m => <[(VirtualRouter.Namespace vr, VirtualRouter.Name vr) := vr]> m) s.

Abbreviation intent := (r1 "d1" (Some 2%Z)).

(** Scenario A: the first sync of r1 on a store that holds nothing else, and
    the sync that follows it with the intent unchanged. *)
Definition firstSync := exampleSync "default/r1" (start (storeWith intent)).

(** Scenario B: the replicas of the intent are changed to 3 after the first
    sync. *)
Definition scaledSync :=
  exampleSync "default/r1" (start (edit (r1 "d1" (Some 3%Z)) (store_after firstSync))).

(** Scenario C: namespace r1 holds a Deployment d1 that nobody owns, and
    none of the supporting objects. *)
Definition foreignDeployment : Deployment.t :=
  {| Deployment.Meta := exampleMeta "r1" "d1" "uid-d1" [];
     Deployment.Spec :=
       Deployment.Spec (newDeployment exampleGroupVersion "r1" (r1 "d1" (Some 2%Z)));
     Deployment.Status := {| DeploymentStatus.AvailableReplicas := 2 |} |}.

Definition foreignStore : Fake.t :=
  Fake.with_deployments (fun m => <[("r1", "d1") := foreignDeployment]> m)
    (Fake.with_namespaces
       (fun m => <["r1" := {| Namespace.Meta := exampleMeta EmptyString "r1" "uid-ns" [] |}]> m)
       (storeWith (r1 "d1" (Some 2%Z)))).

Definition foreignSync := exampleSync "default/r1" (start foreignStore).

(** An intent without replicas is synced, then edited to ask for 3. *)
Definition unscaledSync := exampleSync "default/r1" (start (storeWith (r1 "d1" None))).
Definition lateScaleSync :=
  exampleSync "default/r1" (start (edit (r1 "d1" (Some 3%Z)) (store_after unscaledSync))).



(** A VirtualRouter r1 that lives in namespace r1, and the update event of
    the Deployment projected for it. *)
Definition homedIntent : VirtualRouter.t :=
  {| VirtualRouter.Meta := exampleMeta "r1" "r1" "uid-r1" [];
     VirtualRouter.Spec := VirtualRouter.Spec intent;
     VirtualRouter.Status := VirtualRouter.Status intent |}.
Definition homedDeploymentUpdate :=
  deployment_UpdateFunc Fake.serve (ObjDeployment foreignDeployment)
    (ObjDeployment (newDeployment exampleGroupVersion "r1" homedIntent))
    (start (storeWith homedIntent)).

(** The three terminal conditions. *)
Definition malformedSync := exampleSync "a/b/c" (start Fake.empty).
Definition deletedSync := exampleSync "default/r1" (start Fake.empty).
Definition unnamedSync := exampleSync "default/r1" (start (storeWith (r1 EmptyString (Some 2%Z)))).

(** The namespace cannot be read: a transient failure of the store. *)
Definition outageSync :=
  syncHandler (Fake.during_outage (fun r => match r with GetNamespace _ => true | _ => false end))
    exampleGroupVersion exampleGroupName "default/r1" (start (storeWith (r1 "d1" (Some 2%Z)))).

(** One step of a worker whose queue holds the key of r1. *)
Definition workerStep :=
  processNextWorkItem Fake.serve exampleGroupVersion exampleGroupName
    (start (Fake.with_queue (fun _ => [ObjString "default/r1"]) (storeWith (r1 "d1" (Some 2%Z))))).

(** The Deployment informer reports the Deployment the first sync created. *)
Definition createdDeploymentEvent :=
  handleObject Fake.serve (ObjDeployment (newDeployment exampleGroupVersion "r1" intent))
    (start (store_after firstSync)).

(** A tombstone for the foreign Deployment, and its event. *)
Definition foreignTombstone : object :=
  ObjDeletedFinalStateUnknown "r1/d1" (ObjDeployment foreignDeployment).

(** A worker step whose sync ends in the naming conflict. *)
Definition conflictWorkerStep :=
  processNextWorkItem Fake.serve exampleGroupVersion exampleGroupName
    (start (Fake.with_queue (fun _ => [ObjString "default/r1"]) foreignStore)).

(** A worker loop granted three rounds, on a queue that holds the key of r1
    and an item that is not a string. *)
Definition workerRun :=
  runWorker Fake.serve exampleGroupVersion exampleGroupName 3
    (start (Fake.with_queue (fun _ => [ObjString "default/r1"; ObjOther "item"])
              (storeWith intent))).

(** A worker loop granted one round on the same queue. *)
Definition shortWorkerRun :=
  runWorker Fake.serve exampleGroupVersion exampleGroupName 1
    (start (Fake.with_queue (fun _ => [ObjString "default/r1"; ObjOther "item"])
              (storeWith intent))).

(** r1 with two node selector entries. *)
Definition selectiveIntent : VirtualRouter.t :=
  {| VirtualRouter.Meta := VirtualRouter.Meta intent;
     VirtualRouter.Spec :=
       {| VirtualRouterSpec.DeploymentName := "d1";
          VirtualRouterSpec.Replicas := Some 2%Z;
          VirtualRouterSpec.Image := "img:v1";
          VirtualRouterSpec.NodeSelector :=
            [NodeSelector.mk "zone" "a"; NodeSelector.mk "disk" "ssd"];
          VirtualRouterSpec.Affinity := noAffinity |};
     VirtualRouter.Status := VirtualRouter.Status intent |}.

(** ** Observations on a trace *)

(** The error of an answer, for the calls that can fail. *)
Definition answer_error (r : Request) : Resp r -> option error :=
  match r as r0 return Resp r0 -> option error with
  | ListerGetVirtualRouter _ _ => err_of
  | ListerGetDeployment _ _ => err_of
  | GetNamespace _ => err_of
  | CreateNamespace _ => err_of
  | GetServiceAccount _ _ => err_of
  | CreateServiceAccount _ _ => err_of
  | GetRole _ _ => err_of
  | CreateRole _ _ => err_of
  | GetRoleBinding _ _ => err_of
  | CreateRoleBinding _ _ => err_of
  | CreateDeployment _ _ => err_of
  | UpdateDeployment _ _ => err_of
  | UpdateVirtualRouter _ _ => err_of
  | _ => fun _ => None
  end.

(** The VirtualRouter a lister call returned. *)
Definition virtualRouter_of (e : entry) : option VirtualRouter.t :=
  match e with
  | Call r answer =>
      match r as r0 return Resp r0 -> option VirtualRouter.t with
      | ListerGetVirtualRouter _ _ => fun a => match a with Ok vr => Some vr | Err _ => None end
      | _ => fun _ => None
      end answer
  | Log _ => None
  end.

(** The Deployment the Deployment lister returned. *)
Definition listed_deployment_of (e : entry) : option Deployment.t :=
  match e with
  | Call r answer =>
      match r as r0 return Resp r0 -> option Deployment.t with
      | ListerGetDeployment _ _ => fun a => match a with Ok d => Some d | Err _ => None end
      | _ => fun _ => None
      end answer
  | Log _ => None
  end.

(** The Deployment a lister, Create or Update call returned. *)
Definition deployment_of (e : entry) : option Deployment.t :=
  match e with
  | Call r answer =>
      match r as r0 return Resp r0 -> option Deployment.t with
      | ListerGetDeployment _ _ | CreateDeployment _ _ | UpdateDeployment _ _ =>
          fun a => match a with Ok d => Some d | Err _ => None end
      | _ => fun _ => None
      end answer
  | Log _ => None
  end.

(** The intent object a run read from the cache, the Deployment it found
    there, and the Deployment it last held. *)
Definition fetched_virtualRouter (tr : list entry) : option VirtualRouter.t :=
  head (omap virtualRouter_of tr).
Definition fetched_deployment (tr : list entry) : option Deployment.t :=
  head (omap listed_deployment_of tr).
Definition managed_deployment (tr : list entry) : option Deployment.t :=
  last (omap deployment_of tr).

(** The calls of a trace with their answers, without the log lines. *)
Definition is_call (e : entry) : bool :=
  match e with
  | Call _ _ => true
  | Log _ => false
  end.
Definition calls (tr : list entry) : list entry := List.filter is_call tr.

(** Reads of the store that found nothing or failed. *)
Definition failed_read (e : entry) : option entry :=
  match e with
  | Call r answer =>
      match answer_error r answer with
      | Some _ => if is_write r then None else Some e
      | None => None
      end
  | Log _ => None
  end.
Definition failed_reads (tr : list entry) : list entry := omap failed_read tr.

(** Classes of requests. *)
Definition is_deployment_write (r : Request) : bool :=
  match r with
  | CreateDeployment _ _ | UpdateDeployment _ _ => true
  | _ => false
  end.
Definition is_deployment_update (r : Request) : bool :=
  match r with
  | UpdateDeployment _ _ => true
  | _ => false
  end.
Definition is_status_write (r : Request) : bool :=
  match r with
  | UpdateVirtualRouter _ _ => true
  | _ => false
  end.
Definition is_supporting_create (r : Request) : bool :=
  match r with
  | CreateNamespace _ | CreateServiceAccount _ _ | CreateRole _ _ | CreateRoleBinding _ _ => true
  | _ => false
  end.
Definition is_queue_call (r : Request) : bool :=
  match r with
  | QueueGet | QueueDone _ | QueueForget _ | QueueAdd _ | QueueAddRateLimited _ => true
  | _ => false
  end.
Definition is_event (r : Request) : bool :=
  match r with
  | RecordEvent _ _ _ _ => true
  | _ => false
  end.

Definition deployment_writes (tr : list entry) : list Request := omap (select is_deployment_write) tr.
Definition deployment_updates (tr : list entry) : list Request := omap (select is_deployment_update) tr.
Definition status_writes (tr : list entry) : list Request := omap (select is_status_write) tr.
Definition queue_calls (tr : list entry) : list Request := omap (select is_queue_call) tr.
Definition events (tr : list entry) : list Request := omap (select is_event) tr.

(** The errors handed to utilruntime.HandleError. *)
Definition handled_error (e : entry) : option error :=
  match e with
  | Log (HandleError err) => Some err
  | _ => None
  end.
Definition error_logs (tr : list entry) : list error := omap handled_error tr.


(** ** The Resource Ensurer of the design

    [ensure]: get; if NotFound, create; any other error is propagated.  It
    returns the error (nil as [None]), the new state of the server and the
    entries produced.  The four [ensureVirtualRouter...] functions are
    compared with it below. *)

Section Design.

Context {S : Type}.
Variable serve : forall r : Request, S -> Resp r * S.
Variable SchemeGroupVersion : GroupVersion.t.
Variable virtualrouter_GroupName : string.

Definition ensure (get create : Request) (s : S) : option error * S * list entry :=
  let '(found, s1) := serve get s in
  match answer_error get found with
  | None => (None, s1, [Call get found])
  | Some err =>
      if IsNotFound err then
        let '(created, s2) := serve create s1 in
        match answer_error create created with
        | None => (None, s2, [Call get found; Call create created])
        | Some err' =>
            (Some err', s2, [Call get found; Call create created; Log (KlogError (Error err'))])
        end
      else (Some err, s1, [Call get found; Log (KlogError (Error err))])
  end.


End Design.


(** ** Further observations *)

(** The number of "/" in a key. *)
Fixpoint count_slash (s : string) : nat :=
  match s with
  | EmptyString => 0
  | String c rest => (if Ascii.eqb c "/"%char then 1 else 0) + count_slash rest
  end.

(** strings.Join(parts, "/") *)
Fixpoint Join (parts : list string) : string :=
  match parts with
  | [] => EmptyString
  | [p] => p
  | p :: rest => p +:+ "/" +:+ Join rest
  end.

(** The calls that were answered with an error. *)
Definition failed_call (e : entry) : option (Request * error) :=
  match e with
  | Call r answer =>
      match answer_error r answer with
      | Some err => Some (r, err)
      | None => None
      end
  | Log _ => None
  end.
Definition failures (tr : list entry) : list (Request * error) := omap failed_call tr.

(** What the Deployment lister answered. *)
Definition deployment_lookup_of (e : entry) : option (result Deployment.t) :=
  match e with
  | Call r answer =>
      match r as r0 return Resp r0 -> option (result Deployment.t) with
      | ListerGetDeployment _ _ => fun a => Some a
      | _ => fun _ => None
      end answer
  | Log _ => None
  end.
Definition deployment_lookup (tr : list entry) : option (result Deployment.t) :=
  head (omap deployment_lookup_of tr).

Definition is_deployment_create (r : Request) : bool :=
  match r with
  | CreateDeployment _ _ => true
  | _ => false
  end.
Definition deployment_creates (tr : list entry) : list Request :=
  omap (select is_deployment_create) tr.

(** The items the queue handed out (a Get that did not report shutdown) and
    the items released with Done, in order. *)
Definition got_item (e : entry) : option object :=
  match e with
  | Call r answer =>
      match r as r0 return Resp r0 -> option object with
      | QueueGet => fun a => if a.2 then None else Some a.1
      | _ => fun _ => None
      end answer
  | Log _ => None
  end.
Definition done_item (e : entry) : option object :=
  match e with
  | Call (QueueDone item) _ => Some item
  | _ => None
  end.

(** The namespace a call to the store names: the namespace argument of the
    typed client or lister, and for Namespace objects their own name.  The
    calls on VirtualRouters, the recorder and the queue name none. *)
Definition target_namespace (r : Request) : option string :=
  match r with
  | ListerGetDeployment ns _ | GetServiceAccount ns _ | CreateServiceAccount ns _
  | GetRole ns _ | CreateRole ns _ | GetRoleBinding ns _ | CreateRoleBinding ns _
  | CreateDeployment ns _ | UpdateDeployment ns _ => Some ns
  | GetNamespace name => Some name
  | CreateNamespace obj => Some (ObjectMeta.Name (Namespace.Meta obj))
  | _ => None
  end.




(** The VirtualRouter lookups of a run: the name asked for. *)
Definition owner_lookup_name (e : entry) : option string :=
  match e with
  | Call (ListerGetVirtualRouter _ name) _ => Some name
  | _ => None
  end.
Definition owner_lookup_names (tr : list entry) : list string := omap owner_lookup_name tr.

(** The calls [handleObject] may make: the VirtualRouter lister and Add. *)
Definition is_routing_call (r : Request) : bool :=
  match r with
  | ListerGetVirtualRouter _ _ | QueueAdd _ => true
  | _ => false
  end.

(** * Properties *)

Section Properties.

Context {S : Type}.
Variable serve : forall r : Request, S -> Resp r * S.
Variable SchemeGroupVersion : GroupVersion.t.
Variable virtualrouter_GroupName : string.

Abbreviation sync := (syncHandler serve SchemeGroupVersion virtualrouter_GroupName).

(** A freshly allocated cell is found at the pointer [new] returned. *)
Lemma lookup_fresh (h : Heap) (c : origin * VirtualRouter.t) :
  (h ++ [c]) !! length h = Some c.
Proof. by apply list_lookup_middle. Qed.

(** It is still there after a later allocation. *)
Lemma lookup_fresh_later (h l : Heap) (c : origin * VirtualRouter.t) :
  ((h ++ [c]) ++ l) !! length h = Some c.
Proof. rewrite <- app_assoc. by apply list_lookup_middle. Qed.

(** The map built by the loop of [newDeployment] holds, for each key, the
    value of the last entry with that key. *)
Lemma nodeSelectorMap_lookup (l : list NodeSelector.t) (m0 : gmap string string) k v :
  foldl (fun m nodeSelector =>
           <[ NodeSelector.Key nodeSelector := NodeSelector.Value nodeSelector ]> m) m0 l !! k
    = Some v
  ↔ (∃ l1 l2, l = l1 ++ NodeSelector.mk k v :: l2 ∧ k ∉ NodeSelector.Key <$> l2)
    ∨ (m0 !! k = Some v ∧ k ∉ NodeSelector.Key <$> l).
Proof.
  revert m0. induction l as [|x l IH]; intros m0; simpl.
  - split.
    + intros H. right. split; [done | apply not_elem_of_nil].
    + intros [(l1 & l2 & H & _) | [H _]]; [by destruct l1 | done].
  - rewrite IH. split.
    + intros [(l1 & l2 & -> & Hn) | [Hm Hn]].
      * left. by exists (x :: l1), l2.
      * rewrite lookup_insert in Hm. case_decide as Hk.
        -- left. exists [], l. destruct x as [xk xv]; simpl in *. by simplify_eq.
        -- right. split; [done |]. rewrite not_elem_of_cons. done.
    + intros [(l1 & l2 & Heq & Hn) | [Hm Hn]].
      * destruct l1 as [|y l1]; simplify_eq/=.
        -- right. by rewrite lookup_insert_eq.
        -- left. by exists l1, l2.
      * apply not_elem_of_cons in Hn as [Hne Hn].
        right. by rewrite lookup_insert_ne.
Qed.

(** C7.  [newDeployment] is a function of the namespace and the intent alone
    (it runs outside the monad of calls): the Deployment it returns is named
    by the intent's deploymentName, lies in the given namespace, has the
    intent's replicas, carries the fixed app label on selector and pod
    template, annotates the pod template with the intent's name and
    namespace, maps every node selector key to the value of its last entry
    in the intent, passes the affinity through, has a single container with
    the intent's image, the three added capabilities, privileged mode and
    the POD_NAMESPACE variable set to the given namespace, and is controlled
    by the intent. *)
Theorem newDeployment_projection (newNS : string) (vr : VirtualRouter.t) :
  let d := newDeployment SchemeGroupVersion newNS vr in
  let template := DeploymentSpec.Template (Deployment.Spec d) in
  let pod := PodTemplateSpec.Spec template in
  Deployment.Name d = VirtualRouterSpec.DeploymentName (VirtualRouter.Spec vr)
  ∧ ObjectMeta.Namespace (Deployment.Meta d) = newNS
  ∧ DeploymentSpec.Replicas (Deployment.Spec d) = VirtualRouterSpec.Replicas (VirtualRouter.Spec vr)
  ∧ DeploymentSpec.Selector (Deployment.Spec d)
    = Some (LabelSelector.mk {[ "app" := VIRTUALROUTER_LABEL ]})
  ∧ ObjectMeta.Labels (PodTemplateSpec.Meta template) = {[ "app" := VIRTUALROUTER_LABEL ]}
  ∧ ObjectMeta.Annotations (PodTemplateSpec.Meta template) !! "customresourceName"
    = Some (VirtualRouter.Name vr)
  ∧ ObjectMeta.Annotations (PodTemplateSpec.Meta template) !! "customresourceNamespace"
    = Some (VirtualRouter.Namespace vr)
  ∧ (∀ k v, PodSpec.NodeSelector pod !! k = Some v
            ↔ ∃ l1 l2, VirtualRouterSpec.NodeSelector (VirtualRouter.Spec vr)
                         = l1 ++ NodeSelector.mk k v :: l2
                       ∧ k ∉ NodeSelector.Key <$> l2)
  ∧ PodSpec.Affinity pod = Some (VirtualRouterSpec.Affinity (VirtualRouter.Spec vr))
  ∧ (∃ c, PodSpec.Containers pod = [c]
          ∧ Container.Image c = VirtualRouterSpec.Image (VirtualRouter.Spec vr)
          ∧ Container.Env c = [EnvVar.mk "POD_NAMESPACE" newNS]
          ∧ Container.SecurityContext c
            = Some (SecurityContext.mk
                      (Some (Capabilities.mk ["NET_RAW"; "NET_ADMIN"; "SYS_ADMIN"]))
                      (Some true)))
  ∧ GetControllerOf (ObjectMeta.OwnerReferences (Deployment.Meta d))
    = Some (NewControllerRef vr SchemeGroupVersion "VirtualRouter")
  ∧ IsControlledBy (Deployment.Meta d) vr = true.
Proof.
  cbn -[VIRTUALROUTER_LABEL]. repeat split; try reflexivity.
  - rewrite nodeSelectorMap_lookup. intros [H | [H _]]; [done | by rewrite lookup_empty in H].
  - intros H. apply nodeSelectorMap_lookup. by left.
  - eexists. repeat split.
  - unfold IsControlledBy. cbn. by apply bool_decide_eq_true.
Qed.

(** [updateVirtualRouterStatus] in closed form: one fresh cell holding the
    modified copy, one Update call carrying it. *)
Lemma updateVirtualRouterStatus_run p d (w : World S) o vr :
  heap w !! p = Some (o, vr) →
  updateVirtualRouterStatus serve p d w =
    let copy := set_AvailableReplicas (DeploymentStatus.AvailableReplicas (Deployment.Status d)) vr in
    let request := UpdateVirtualRouter (VirtualRouter.Namespace vr) copy in
    let '(answer, s) := serve request (server w) in
    (Val (err_of answer), mkWorld s (heap w ++ [(Copied, copy)]), [Call request answer]).
Proof.
  intros Hp. unfold updateVirtualRouterStatus.
  cbv beta iota zeta delta [bind ret call load new assign DeepCopy].
  rewrite Hp. cbn [heap server]. rewrite lookup_fresh.
  cbn [heap server]. rewrite insert_app_r_alt by done.
  rewrite Nat.sub_diag. cbn [insert list_insert].
  rewrite (lookup_app_l_Some _ _ _ _ Hp). cbn [heap server]. rewrite lookup_fresh.
  cbn [heap server]. by destruct (serve _ _) as [answer s].
Qed.

(** *** The ensure functions against the design *)

Abbreviation ensure' := (ensure serve).

Lemma ensureVirtualRouterNamespace_ensure newNS p (w : World S) o vr :
  heap w !! p = Some (o, vr) →
  ensureVirtualRouterNamespace serve SchemeGroupVersion newNS p w =
    let '(e, s, t) := ensure' (GetNamespace newNS)
                        (CreateNamespace (namespaceFor SchemeGroupVersion newNS vr)) (server w) in
    (Val e, mkWorld s (heap w), t).
Proof.
  intros Hp. unfold ensureVirtualRouterNamespace, ensure.
  cbv beta iota zeta delta [bind ret call log load negb].
  destruct (serve _ _) as [[found|err] s1]; cbn; [by destruct w |].
  destruct (IsNotFound err); cbn; [| done].
  rewrite Hp. by destruct (serve _ _) as [[created|err'] s2].
Qed.

Lemma ensureVirtualRouterSA_ensure newNS p (w : World S) o vr :
  heap w !! p = Some (o, vr) →
  ensureVirtualRouterSA serve SchemeGroupVersion newNS p w =
    let '(e, s, t) := ensure' (GetServiceAccount newNS SERVICE_ACCOUNT_NAME)
                        (CreateServiceAccount newNS (serviceAccountFor SchemeGroupVersion newNS vr))
                        (server w) in
    (Val e, mkWorld s (heap w), t).
Proof.
  intros Hp. unfold ensureVirtualRouterSA, ensure.
  cbv beta iota zeta delta [bind ret call log load negb].
  destruct (serve _ _) as [[found|err] s1]; cbn; [by destruct w |].
  destruct (IsNotFound err); cbn; [| done].
  rewrite Hp. by destruct (serve _ _) as [[created|err'] s2].
Qed.

Lemma ensureVirtualRouterRole_ensure newNS p (w : World S) o vr :
  heap w !! p = Some (o, vr) →
  ensureVirtualRouterRole serve SchemeGroupVersion virtualrouter_GroupName newNS p w =
    let '(e, s, t) := ensure' (GetRole newNS ROLE_NAME)
                        (CreateRole newNS (roleFor SchemeGroupVersion virtualrouter_GroupName newNS vr))
                        (server w) in
    (Val e, mkWorld s (heap w), t).
Proof.
  intros Hp. unfold ensureVirtualRouterRole, ensure.
  cbv beta iota zeta delta [bind ret call log load negb].
  destruct (serve _ _) as [[found|err] s1]; cbn; [by destruct w |].
  destruct (IsNotFound err); cbn; [| done].
  rewrite Hp. by destruct (serve _ _) as [[created|err'] s2].
Qed.

Lemma ensureVirtualRouterRoleBinding_ensure newNS p (w : World S) o vr :
  heap w !! p = Some (o, vr) →
  ensureVirtualRouterRoleBinding serve SchemeGroupVersion newNS p w =
    let '(e, s, t) := ensure' (GetRoleBinding newNS ROLE_BINDING_NAME)
                        (CreateRoleBinding newNS (roleBindingFor SchemeGroupVersion newNS vr))
                        (server w) in
    (Val e, mkWorld s (heap w), t).
Proof.
  intros Hp. unfold ensureVirtualRouterRoleBinding, ensure.
  cbv beta iota zeta delta [bind ret call log load negb].
  destruct (serve _ _) as [[found|err] s1]; cbn; [by destruct w |].
  destruct (IsNotFound err); cbn; [| done].
  rewrite Hp. by destruct (serve _ _) as [[created|err'] s2].
Qed.

(** What an ensure step leaves in the trace is invisible to an observation
    that ignores its two requests and klog. *)
Lemma ensure_quiet {A} (f : entry → option A) get create s e s' t :
  ensure' get create s = (e, s', t) →
  (∀ a, f (Call get a) = None) →
  (∀ a, f (Call create a) = None) →
  (∀ m, f (Log (KlogError m)) = None) →
  omap f t = [].
Proof.
  unfold ensure. intros Hrun Hget Hcreate Hlog. revert Hrun.
  destruct (serve get s) as [found s1].
  destruct (answer_error get found) as [err|]; [destruct (IsNotFound err) |].
  - destruct (serve create s1) as [created s2].
    destruct (answer_error create created); intros [= <- <- <-]; cbn;
      by rewrite ?Hget, ?Hcreate, ?Hlog.
  - intros [= <- <- <-]. cbn. by rewrite Hget, Hlog.
  - intros [= <- <- <-]. cbn. by rewrite Hget.
Qed.

(** An ensure step writes at most its Create, and nothing when its Get
    found the object. *)
Lemma ensure_writes get create s e s' t :
  ensure' get create s = (e, s', t) →
  is_write get = false →
  is_supporting_create create = true →
  forallb is_supporting_create (writes t) = true
  ∧ (failed_reads t = [] → e = None ∧ writes t = []).
Proof.
  unfold ensure. intros Hrun Hget Hcreate. revert Hrun.
  assert (is_write create = true) as Hw by (by destruct create).
  destruct (serve get s) as [found s1].
  destruct (answer_error get found) as [err|] eqn:Hfound; [destruct (IsNotFound err) |].
  - destruct (serve create s1) as [created s2].
    destruct (answer_error create created); intros [= <- <- <-];
      unfold writes, failed_reads; cbn; rewrite Hget, Hw, Hfound; cbn; by rewrite Hcreate.
  - intros [= <- <- <-]. unfold writes, failed_reads. cbn. by rewrite Hget, Hfound.
  - intros [= <- <- <-]. unfold writes, failed_reads. cbn. by rewrite Hget, Hfound.
Qed.


(** *** Symbolic execution of [syncHandler]

    Unfold the monad, then split on the next answer of the server or the
    next test of the code; an ensure step is split on its error alone. *)
Ltac run_monad :=
  cbv beta iota zeta delta
    [bind ret call log panic load new assign DeepCopy defer virtualRoutersLister_Get
     negb err_of];
  cbn [server heap fst snd app];
  rewrite ?lookup_fresh, ?lookup_fresh_later.

Ltac split_answer a :=
  cbn [Resp] in a;
  match type of a with
  | result _ => destruct a
  | (_ * _)%type => destruct a
  | unit => destruct a
  end.

Ltac split_ensure :=
  match goal with
  | |- context [ensure serve ?g ?c ?s] =>
      let e := fresh "err" in
      let s' := fresh "s" in
      let t := fresh "t" in
      destruct (ensure serve g c s) as [[[e|] s'] t] eqn:?
  end.

Ltac run_step :=
  match goal with
  | |- context [ensureVirtualRouterNamespace serve _ ?ns ?p ?w] =>
      erewrite (ensureVirtualRouterNamespace_ensure ns p w) by apply lookup_fresh;
      cbn [server heap]; split_ensure
  | |- context [ensureVirtualRouterSA serve _ ?ns ?p ?w] =>
      erewrite (ensureVirtualRouterSA_ensure ns p w) by apply lookup_fresh;
      cbn [server heap]; split_ensure
  | |- context [ensureVirtualRouterRole serve _ _ ?ns ?p ?w] =>
      erewrite (ensureVirtualRouterRole_ensure ns p w) by apply lookup_fresh;
      cbn [server heap]; split_ensure
  | |- context [ensureVirtualRouterRoleBinding serve _ ?ns ?p ?w] =>
      erewrite (ensureVirtualRouterRoleBinding_ensure ns p w) by apply lookup_fresh;
      cbn [server heap]; split_ensure
  | |- context [updateVirtualRouterStatus serve ?p ?d ?w] =>
      erewrite (updateVirtualRouterStatus_run p d w) by apply lookup_fresh;
      cbn [server heap]
  | |- context [match SplitMetaNamespaceKey ?key with _ => _ end] =>
      destruct (SplitMetaNamespaceKey key) as [[? ?]|?] eqn:?
  | |- context [serve ?r ?s] =>
      let a := fresh "answer" in
      let s' := fresh "s" in
      destruct (serve r s) as [a s'] eqn:?; split_answer a
  | |- context [IsNotFound ?e] => destruct (IsNotFound e) eqn:?
  | |- context [decide ?P] => destruct (decide P)
  | |- context [IsControlledBy ?m ?v] => destruct (IsControlledBy m v) eqn:?
  | |- context [match VirtualRouterSpec.Replicas ?x with _ => _ end] =>
      destruct (VirtualRouterSpec.Replicas x) eqn:?
  | |- context [match DeploymentSpec.Replicas ?x with _ => _ end] =>
      destruct (DeploymentSpec.Replicas x) eqn:?
  end; run_monad.

Ltac run_sync := unfold syncHandler; run_monad; repeat run_step.

#[local] Arguments newDeployment : simpl never.
#[local] Arguments namespaceFor : simpl never.
#[local] Arguments serviceAccountFor : simpl never.
#[local] Arguments roleFor : simpl never.
#[local] Arguments roleBindingFor : simpl never.
#[local] Arguments set_AvailableReplicas : simpl never.
#[local] Arguments IsControlledBy : simpl never.

#[local] Arguments ensure : simpl never.

(** After the run: evaluate the observations over the trace, skipping the
    segments of the ensure steps they do not see. *)
Ltac skip_ensures :=
  repeat match goal with
         | H : ensure serve ?g ?c ?s = (_, _, ?t) |- context [omap ?f ?t] =>
             rewrite (ensure_quiet f g c s _ _ t H) by (intros; reflexivity)
         | H : ensure serve ?g ?c ?s = (_, _, ?t), H' : context [omap ?f ?t] |- _ =>
             rewrite (ensure_quiet f g c s _ _ t H) in H' by (intros; reflexivity)
         end.

Ltac observe :=
  unfold fetched_virtualRouter, fetched_deployment, managed_deployment, events,
    deployment_writes, deployment_updates, status_writes, queue_calls, error_logs,
    writes, failed_reads, requests in *;
  repeat (progress (cbn in *; rewrite ?omap_app in *; skip_ensures));
  simplify_eq.

Ltac ensure_facts :=
  repeat match goal with
         | H : ensure serve ?g ?c ?s = (?e, _, ?t) |- _ =>
             lazymatch goal with
             | _ : forallb is_supporting_create (writes t) = true ∧ _ |- _ => fail
             | _ => pose proof (ensure_writes g c s e _ t H eq_refl eq_refl)
             end
         end.

Ltac finish_run :=
  intros [= <- <- <-]; observe;
  repeat match goal with
         | H : ¬ (_ ≠ _) |- _ => apply dec_stable in H
         end.

Ltac use_ensure_facts :=
  ensure_facts; unfold writes, failed_reads in *;
  repeat match goal with
         | H : _ ∧ _ |- _ => destruct H
         end.

(** What the ensure steps wrote, when every read succeeded: nothing. *)
Ltac no_ensure_writes Hreads :=
  repeat (apply app_eq_nil in Hreads as [? Hreads]);
  repeat match goal with
         | H : ?reads = [] → _ ∧ _, H' : ?reads = [] |- _ =>
             destruct (H H') as [_ ->]; clear H
         end.

(** C3.  The three terminal conditions: the key does not parse, the lister
    answers NotFound, or the intent has an empty deploymentName.  In each,
    [syncHandler] returns nil, after handing one error to HandleError, and
    makes no write call. *)
Theorem syncHandler_terminal_conditions key (w : World S) out w' tr :
  sync key w = (out, w', tr) →
  (∃ e, SplitMetaNamespaceKey key = Err e)
  ∨ (∃ namespace name e,
       SplitMetaNamespaceKey key = Ok (namespace, name)
       ∧ fst (serve (ListerGetVirtualRouter namespace name) (server w)) = Err e
       ∧ IsNotFound e = true)
  ∨ (∃ namespace name vr,
       SplitMetaNamespaceKey key = Ok (namespace, name)
       ∧ fst (serve (ListerGetVirtualRouter namespace name) (server w)) = Ok vr
       ∧ VirtualRouterSpec.DeploymentName (VirtualRouter.Spec vr) = EmptyString) →
  out = Val None ∧ writes tr = [] ∧ length (error_logs tr) = 1.
Proof.
  intros Hrun Hterminal. revert Hrun. unfold syncHandler. run_monad.
  destruct Hterminal as [[e Hkey] | [(namespace & name & e & Hkey & Hget & Hnf)
                                    | (namespace & name & vr & Hkey & Hget & Hname)]];
    rewrite Hkey; run_monad.
  - by intros [= <- <- <-].
  - destruct (serve _ _) as [answer s]. cbn in Hget. subst answer.
    run_monad. rewrite Hnf. run_monad. by intros [= <- <- <-].
  - destruct (serve _ _) as [answer s]. cbn in Hget. subst answer.
    run_monad. destruct (decide _) as [_|Hne]; [| done]. run_monad.
    by intros [= <- <- <-].
Qed.

(** C2, as the code has it.  When the Deployment the lister returns is not
    controlled by the VirtualRouter, [syncHandler] records one warning event
    against the intent, returns the conflict error, and writes neither a
    Deployment nor the intent.  The ensure steps have run before: the only
    writes are their Creates of missing supporting objects, and there is no
    write at all when every object looked up was found. *)
Theorem syncHandler_foreign_deployment key (w : World S) out w' tr vr d :
  sync key w = (out, w', tr) →
  fetched_virtualRouter tr = Some vr →
  fetched_deployment tr = Some d →
  IsControlledBy (Deployment.Meta d) vr = false →
  let msg := Sprintf (Str MessageResourceExists) [Str (Deployment.Name d)] in
  events tr = [RecordEvent vr EventTypeWarning ErrResourceExists msg]
  ∧ out = Val (Some (Errorf msg []))
  ∧ deployment_writes tr = []
  ∧ status_writes tr = []
  ∧ forallb is_supporting_create (writes tr) = true
  ∧ (failed_reads tr = [] → writes tr = []).
Proof.
  intros Hrun Hvr Hd Hforeign. revert Hrun.
  run_sync; finish_run; try congruence.
  use_ensure_facts. repeat split; try done.
  - rewrite !forallb_app. by repeat (apply andb_true_intro; split).
  - intros Hreads. by no_ensure_writes Hreads.
Qed.






(** The comparison of the replicas has no nil check of its own.  Were the
    lister to return a controlled Deployment with a nil Spec.Replicas while
    the intent names a replica count, the comparison would dereference the
    nil pointer: [syncHandler] panics, before any write to the Deployment or
    to the intent. *)
Lemma syncHandler_nil_replicas_panics key (w : World S) out w' tr vr d wanted :
  sync key w = (out, w', tr) →
  fetched_virtualRouter tr = Some vr →
  fetched_deployment tr = Some d →
  IsControlledBy (Deployment.Meta d) vr = true →
  VirtualRouterSpec.Replicas (VirtualRouter.Spec vr) = Some wanted →
  DeploymentSpec.Replicas (Deployment.Spec d) = None →
  out = Panic nilDereference ∧ deployment_writes tr = [] ∧ status_writes tr = [].
Proof.
  intros Hrun Hvr Hd Howned Hwanted Hnil. revert Hrun.
  by run_sync; finish_run; try congruence.
Qed.

(** X11.  The only panic of [syncHandler] is that dereference: the
    Deployment in hand has no replicas while the intent has some. *)
Lemma syncHandler_panics_only_on_nil_replicas key (w : World S) out w' tr :
  sync key w = (out, w', tr) →
  ∀ reason, out = Panic reason →
    reason = nilDereference
    ∧ ∃ vr d wanted,
        fetched_virtualRouter tr = Some vr
        ∧ managed_deployment tr = Some d
        ∧ VirtualRouterSpec.Replicas (VirtualRouter.Spec vr) = Some wanted
        ∧ DeploymentSpec.Replicas (Deployment.Spec d) = None.
Proof.
  run_sync; finish_run; intros reason Hpanic; try discriminate;
    (split; [congruence | by eexists _, _, _]).
Qed.







(** The cells of the cache after a run. *)
Lemma cached_after_get (h : Heap) vr p vr' :
  (h ++ [(Cached, vr)]) !! p = Some (Cached, vr') →
  h !! p = Some (Cached, vr') ∨ Some vr = Some vr'.
Proof.
  intros [Hp | [_ Hp]]%lookup_app_Some; [by left |].
  destruct (p - length h) as [|n]; simplify_eq/=. by right.
Qed.

Lemma cached_after_copy (h : Heap) vr copy p vr' :
  ((h ++ [(Cached, vr)]) ++ [(Copied, copy)]) !! p = Some (Cached, vr') →
  h !! p = Some (Cached, vr') ∨ Some vr = Some vr'.
Proof.
  intros [Hp | [_ Hp]]%lookup_app_Some; [by apply cached_after_get |].
  by destruct (_ - _) as [|n]; simplify_eq/=.
Qed.

(** C8.  A run of [syncHandler] makes at most one status write.  The object
    it carries is the VirtualRouter the lister returned with
    Status.AvailableReplicas replaced by the AvailableReplicas of the
    Deployment the run last held; metadata and spec are those of the cached
    object.  No cell of the heap that existed before the run is changed, and
    the cell of the cached object still holds what the lister returned: the
    assignment went to the copy. *)
Theorem syncHandler_status_write key (w : World S) out w' tr :
  sync key w = (out, w', tr) →
  (status_writes tr = []
   ∨ ∃ vr d,
       fetched_virtualRouter tr = Some vr
       ∧ managed_deployment tr = Some d
       ∧ let copy := set_AvailableReplicas
                       (DeploymentStatus.AvailableReplicas (Deployment.Status d)) vr in
         status_writes tr = [UpdateVirtualRouter (VirtualRouter.Namespace vr) copy]
         ∧ VirtualRouter.Meta copy = VirtualRouter.Meta vr
         ∧ VirtualRouter.Spec copy = VirtualRouter.Spec vr
         ∧ VirtualRouterStatus.AvailableReplicas (VirtualRouter.Status copy)
           = DeploymentStatus.AvailableReplicas (Deployment.Status d))
  ∧ (∀ p c, heap w !! p = Some c → heap w' !! p = Some c)
  ∧ (∀ p vr, heap w' !! p = Some (Cached, vr) →
             heap w !! p = Some (Cached, vr) ∨ fetched_virtualRouter tr = Some vr).
Proof.
  run_sync; finish_run;
    (split;
     [ first [ by left | right; by eexists _, _ ]
     | split;
       [ intros p c Hp; by repeat apply lookup_app_l_Some
       | intros p vr' Hp;
         first [ by left | by apply cached_after_get in Hp | by apply cached_after_copy in Hp ] ] ]).
Qed.

(** [syncHandler] never touches the work queue. *)
Lemma syncHandler_queue_free key (w : World S) out w' tr :
  sync key w = (out, w', tr) → queue_calls tr = [].
Proof. by run_sync; finish_run. Qed.

(** C4.  One step of the worker.  When the queue reports shutdown the step
    returns false and touches the queue no further.  Otherwise its queue
    calls are, in order: Get; then Forget of the item when [syncHandler]
    returned nil (or the item was not a string), AddRateLimited of the key
    when it returned an error; then Done of the item, once; and the step
    returns true.  Should [syncHandler] panic, the deferred Done still runs
    and the panic goes on. *)
Theorem processNextWorkItem_outcome (w : World S) out w' tr :
  processNextWorkItem serve SchemeGroupVersion virtualrouter_GroupName w = (out, w', tr) →
  let '(obj, shutdown, s1) := serve QueueGet (server w) in
  if shutdown : bool then out = Val false ∧ queue_calls tr = [QueueGet]
  else
    match obj with
    | ObjString key =>
        match sync key (mkWorld s1 (heap w)) with
        | (Val None, _, _) =>
            out = Val true ∧ queue_calls tr = [QueueGet; QueueForget obj; QueueDone obj]
        | (Val (Some _), _, _) =>
            out = Val true ∧ queue_calls tr = [QueueGet; QueueAddRateLimited obj; QueueDone obj]
        | (Panic reason, _, _) =>
            out = Panic reason ∧ queue_calls tr = [QueueGet; QueueDone obj]
        end
    | _ => out = Val true ∧ queue_calls tr = [QueueGet; QueueForget obj; QueueDone obj]
    end.
Proof.
  unfold processNextWorkItem. run_monad.
  destruct (serve QueueGet (server w)) as [[obj shutdown] s1]. run_monad.
  destruct shutdown; [by intros [= <- <- <-] |].
  destruct obj as [| | |key|]; run_monad.
  4:{ destruct (sync key _) as [[o w2] t] eqn:Hsync.
      apply syncHandler_queue_free in Hsync. unfold queue_calls in *.
      destruct o as [[err|]|reason]; run_monad; repeat run_step;
        intros [= <- <- <-]; cbn; by rewrite ?omap_app, Hsync. }
  all: repeat run_step; by intros [= <- <- <-].
Qed.

(** The worker loop ends as soon as the queue reports shutdown. *)
Lemma runWorker_shutdown fuel (w : World S) obj s1 :
  serve QueueGet (server w) = (obj, true, s1) →
  runWorker serve SchemeGroupVersion virtualrouter_GroupName (Datatypes.S fuel) w
  = (Val true, mkWorld s1 (heap w), [Call QueueGet (obj, true)]).
Proof.
  intros Hget. cbn [runWorker]. unfold processNextWorkItem. run_monad.
  rewrite Hget. by run_monad.
Qed.

(** The key of a VirtualRouter always exists. *)
Lemma MetaNamespaceKeyFunc_virtualRouter vr :
  ∃ key, MetaNamespaceKeyFunc (ObjVirtualRouter vr) = Ok key.
Proof. unfold MetaNamespaceKeyFunc. cbn. destruct (decide _); by eexists. Qed.

(** C9, as the code has it.  On the Deployment informer an update whose old
    and new resource versions are equal is dropped without any effect, and
    any other update goes to [handleObject]: for a Deployment whose
    controller reference has kind VirtualRouter it asks the lister once, for
    the name in the reference, and enqueues the key of the VirtualRouter the
    lister returns, or nothing when the lister returns none; it makes no
    call at all when the kind differs or when there is no controller
    reference.  On the VirtualRouter informer every update enqueues the key
    of the new object, whatever the resource versions. *)
Theorem update_event_routing :
  (∀ oldDepl newDepl (w : World S),
     ObjectMeta.ResourceVersion (Deployment.Meta newDepl)
     = ObjectMeta.ResourceVersion (Deployment.Meta oldDepl) →
     deployment_UpdateFunc serve (ObjDeployment oldDepl) (ObjDeployment newDepl) w
     = (Val tt, w, []))
  ∧ (∀ oldDepl newDepl (w : World S),
       ObjectMeta.ResourceVersion (Deployment.Meta newDepl)
       ≠ ObjectMeta.ResourceVersion (Deployment.Meta oldDepl) →
       deployment_UpdateFunc serve (ObjDeployment oldDepl) (ObjDeployment newDepl) w
       = handleObject serve (ObjDeployment newDepl) w)
  ∧ (∀ d (w : World S) out w' tr,
       handleObject serve (ObjDeployment d) w = (out, w', tr) →
       out = Val tt
       ∧ match GetControllerOf (ObjectMeta.OwnerReferences (Deployment.Meta d)) with
         | Some ownerRef =>
             if decide (OwnerReference.Kind ownerRef = "VirtualRouter") then
               owner_lookup_names tr = [OwnerReference.Name ownerRef]
               ∧ match fetched_virtualRouter tr with
                 | Some vr =>
                     ∃ key, MetaNamespaceKeyFunc (ObjVirtualRouter vr) = Ok key
                            ∧ queue_calls tr = [QueueAdd (ObjString key)]
                 | None => queue_calls tr = []
                 end
             else requests tr = []
         | None => requests tr = []
         end)
  ∧ (∀ old vr (w : World S) out w' tr,
       virtualRouter_UpdateFunc serve old (ObjVirtualRouter vr) w = (out, w', tr) →
       out = Val tt
       ∧ ∃ key, MetaNamespaceKeyFunc (ObjVirtualRouter vr) = Ok key
                ∧ requests tr = [QueueAdd (ObjString key)]).
Proof.
  split; [| split; [| split]].
  - intros oldDepl newDepl w Hrv. unfold deployment_UpdateFunc.
    by destruct (decide _).
  - intros oldDepl newDepl w Hrv. unfold deployment_UpdateFunc.
    by destruct (decide _).
  - intros d w out w' tr. unfold handleObject, enqueueVirtualRouter.
    cbn [asMetaObject]. run_monad.
    destruct (GetControllerOf _) as [ownerRef|]; [| by intros [= <- <- <-]].
    destruct (decide (OwnerReference.Kind ownerRef = "VirtualRouter")) as [Hkind|Hkind].
    + rewrite bool_decide_eq_true_2 by done. run_monad.
      destruct (serve _ _) as [[vr|err] s1]; run_monad; [| by intros [= <- <- <-]].
      destruct (MetaNamespaceKeyFunc_virtualRouter vr) as [key Hkey]. rewrite Hkey.
      run_monad. destruct (serve _ _) as [[] s2]. intros [= <- <- <-].
      split; [done |]. split; [done |]. by exists key.
    + rewrite bool_decide_eq_false_2 by done. by intros [= <- <- <-].
  - intros old vr w out w' tr. unfold virtualRouter_UpdateFunc, enqueueVirtualRouter.
    destruct (MetaNamespaceKeyFunc_virtualRouter vr) as [key Hkey]. rewrite Hkey.
    run_monad. destruct (serve _ _) as [[] s1]. intros [= <- <- <-].
    split; [done |]. by exists key.
Qed.

(** ** Further properties of the code *)

(** *** Keys *)

Lemma Split_nonempty s : Split s ≠ [].
Proof.
  destruct s as [|c rest]; cbn; [done |].
  destruct (Ascii.eqb c "/"); [done |]. by destruct (Split rest).
Qed.

Lemma Split_Join s : Join (Split s) = s.
Proof.
  induction s as [|c rest IH]; [done |]. cbn [Split].
  destruct (Ascii.eqb_spec c "/"%char) as [-> | Hc].
  - pose proof (Split_nonempty rest). destruct (Split rest) as [|h t] eqn:Hrest; [done |].
    cbn [Join]. cbn [Join] in IH. by rewrite IH.
  - destruct (Split rest) as [|h t] eqn:Hrest; [by destruct (Split_nonempty rest) |].
    cbn [Join] in *. destruct t; cbn; by rewrite <- IH.
Qed.

Lemma Split_length s : length (Split s) = Datatypes.S (count_slash s).
Proof.
  induction s as [|c rest IH]; [done |]. cbn [Split count_slash].
  destruct (Ascii.eqb c "/"); cbn; [by rewrite IH |].
  destruct (Split rest); cbn in *; lia.
Qed.

Lemma Split_no_slash s : count_slash s = 0 → Split s = [s].
Proof.
  induction s as [|c rest IH]; [done |]. cbn [Split count_slash].
  destruct (Ascii.eqb c "/"); [done |]. intros Hrest. by rewrite IH.
Qed.

Lemma Split_key namespace name :
  count_slash namespace = 0 → Split (namespace +:+ "/" +:+ name) = namespace :: Split name.
Proof.
  change ("/" +:+ name) with (String "/"%char name).
  induction namespace as [|c rest IH]; [done |]. simpl.
  destruct (Ascii.eqb c "/"); [done |]. intros Hrest. by rewrite IH.
Qed.

(** MetaNamespaceKeyFunc and SplitMetaNamespaceKey are inverse on names
    without "/". *)
Lemma MetaNamespaceKeyFunc_Split obj meta :
  asMetaObject obj = Some meta →
  count_slash (ObjectMeta.Namespace meta) = 0 →
  count_slash (ObjectMeta.Name meta) = 0 →
  ∃ key, MetaNamespaceKeyFunc obj = Ok key
         ∧ SplitMetaNamespaceKey key = Ok (ObjectMeta.Namespace meta, ObjectMeta.Name meta).
Proof.
  intros Hmeta Hns Hname. unfold MetaNamespaceKeyFunc, SplitMetaNamespaceKey. rewrite Hmeta.
  destruct (decide _) as [Hempty | Hnonempty]; eexists; (split; [done |]).
  - rewrite Split_no_slash by done. by rewrite Hempty.
  - rewrite Split_key by done. by rewrite Split_no_slash.
Qed.

(** The first call of [syncHandler] on a key that parses. *)
Lemma syncHandler_first_call key namespace name (w : World S) out w' tr :
  SplitMetaNamespaceKey key = Ok (namespace, name) →
  sync key w = (out, w', tr) →
  head (requests tr) = Some (ListerGetVirtualRouter namespace name).
Proof. intros Hkey. by run_sync; finish_run. Qed.

(** X1.  A VirtualRouter whose namespace and name hold no "/" is enqueued
    under a key that makes [syncHandler] ask the lister for that very
    namespace and name. *)
Theorem enqueued_key_is_synced vr (w : World S) out w' tr :
  count_slash (VirtualRouter.Namespace vr) = 0 →
  count_slash (VirtualRouter.Name vr) = 0 →
  enqueueVirtualRouter serve (ObjVirtualRouter vr) w = (out, w', tr) →
  ∃ key,
    requests tr = [QueueAdd (ObjString key)]
    ∧ ∀ w2 : World S,
        head (requests (sync key w2).2)
        = Some (ListerGetVirtualRouter (VirtualRouter.Namespace vr) (VirtualRouter.Name vr)).
Proof.
  intros Hns Hname.
  destruct (MetaNamespaceKeyFunc_Split (ObjVirtualRouter vr) _ eq_refl Hns Hname)
    as (key & Hkey & Hsplit).
  unfold enqueueVirtualRouter. rewrite Hkey. run_monad.
  destruct (serve _ _) as [[] s1]. intros [= <- <- <-]. exists key. split; [done |].
  intros w2. destruct (sync key w2) as [[out2 w3] tr2] eqn:Hrun.
  by eapply syncHandler_first_call.
Qed.

(** X2.  [enqueueVirtualRouter] returns, leaves the heap alone and touches
    nothing but the queue: an object with metadata is added once under its
    key and nothing is logged; an object without metadata is handed to
    HandleError and the queue is not called. *)
Theorem enqueueVirtualRouter_effect obj (w : World S) out w' tr :
  enqueueVirtualRouter serve obj w = (out, w', tr) →
  out = Val tt ∧ heap w' = heap w
  ∧ match asMetaObject obj with
    | Some meta =>
        ∃ key, MetaNamespaceKeyFunc obj = Ok key
               ∧ Join (if decide (ObjectMeta.Namespace meta = EmptyString)
                       then [ObjectMeta.Name meta]
                       else [ObjectMeta.Namespace meta; ObjectMeta.Name meta]) = key
               ∧ requests tr = [QueueAdd (ObjString key)] ∧ error_logs tr = []
    | None => requests tr = [] ∧ length (error_logs tr) = 1 ∧ w' = w
    end.
Proof.
  unfold enqueueVirtualRouter, MetaNamespaceKeyFunc.
  destruct (asMetaObject obj) as [meta|]; [| by intros [= <- <- <-]].
  destruct (decide _); run_monad; destruct (serve _ _) as [[] s1];
    intros [= <- <- <-]; (split; [done | split; [done |]]); by eexists.
Qed.

(** *** Event routing *)

Lemma bind_log {A} l (k : M S A) (w : World S) :
  bind (log l) (fun _ => k) w
  = let '(o, w', t) := bind (ret tt) (fun _ => k) w in (o, w', Log l :: t).
Proof. unfold bind, log, ret. by destruct (k w) as [[o w'] t]. Qed.

(** X3.  [handleObject] on something that is neither an object with
    metadata nor a tombstone holding one: the error goes to HandleError and
    nothing else happens. *)
Theorem handleObject_invalid_type obj (w : World S) :
  asMetaObject obj = None →
  (∀ key inner, obj = ObjDeletedFinalStateUnknown key inner → asMetaObject inner = None) →
  ∃ err, handleObject serve obj w = (Val tt, w, [Log (HandleError err)]).
Proof.
  intros Hobj Hinner. unfold handleObject. rewrite Hobj.
  destruct obj as [vr|d|key inner|key|repr]; try by eexists.
  rewrite (Hinner key inner eq_refl). by eexists.
Qed.

(** X4.  A tombstone that holds an object with metadata is routed as the
    object itself: same outcome, same state, same calls and answers, after
    one more klog line. *)
Theorem handleObject_tombstone key inner meta (w : World S) :
  asMetaObject inner = Some meta →
  let direct := handleObject serve inner w in
  handleObject serve (ObjDeletedFinalStateUnknown key inner) w
  = (direct.1.1, direct.1.2,
     Log (KlogInfo 4 (Sprintf (Str "Recovered deleted object '%s' from tombstone")
                        [Str (ObjectMeta.Name meta)])) :: direct.2).
Proof.
  intros Hmeta. unfold handleObject. cbn [asMetaObject]. rewrite Hmeta.
  rewrite bind_log. by destruct (bind (ret tt) _ w) as [[o w'] t].
Qed.

Ltac run_route :=
  unfold handleObject, enqueueVirtualRouter, MetaNamespaceKeyFunc;
  cbn [asMetaObject]; run_monad;
  repeat (first
            [ run_step
            | match goal with
              | |- context [GetControllerOf ?refs] => destruct (GetControllerOf refs) eqn:?
              | |- context [bool_decide ?P] => destruct (bool_decide P) eqn:?
              end ];
          cbn [asMetaObject]; run_monad).

(** X5.  Whatever it is given, [handleObject] returns, calls nothing but the
    VirtualRouter lister and the queue's Add, adds at most one key, and
    neither writes to the store nor records an event. *)
Theorem handleObject_effects obj (w : World S) out w' tr :
  handleObject serve obj w = (out, w', tr) →
  out = Val tt
  ∧ forallb is_routing_call (requests tr) = true
  ∧ (length (queue_calls tr) ≤ 1)%nat
  ∧ writes tr = []
  ∧ events tr = [].
Proof.
  destruct obj as [vr|d|key inner|key|repr]; [| | destruct inner as [vr|d|key' inner'|key'|repr] | |];
    run_route; intros [= <- <- <-]; cbn; repeat split; lia.
Qed.


(** *** More on [syncHandler] *)

(** The failed calls of an ensure step: none but a Get answered NotFound
    when the step returns nil; otherwise its last call is the one that
    failed with the error returned. *)
Lemma ensure_failures get create s e s' t :
  ensure' get create s = (e, s', t) →
  is_write get = false →
  match e with
  | None => Forall (fun f => is_write f.1 = false ∧ IsNotFound f.2 = true) (failures t)
  | Some err => ∃ e r, last (calls t) = Some e ∧ failed_call e = Some (r, err)
  end.
Proof.
  unfold ensure. intros Hrun Hget. revert Hrun.
  destruct (serve get s) as [found s1].
  destruct (answer_error get found) as [err|] eqn:Hfound; [destruct (IsNotFound err) eqn:Hnf |].
  - destruct (serve create s1) as [created s2].
    destruct (answer_error create created) as [err'|] eqn:Hcreated; intros [= <- <- <-].
    + eexists _, _. split; [reflexivity |]. cbn. by rewrite Hcreated.
    + unfold failures. cbn. rewrite Hfound, Hcreated. by repeat constructor.
  - intros [= <- <- <-]. eexists _, _. split; [reflexivity |]. cbn. by rewrite Hfound.
  - intros [= <- <- <-]. unfold failures. cbn. by rewrite Hfound.
Qed.

Lemma ensure_requests_Forall (P : Request → Prop) get create s e s' t :
  ensure' get create s = (e, s', t) → P get → P create → Forall P (requests t).
Proof.
  unfold ensure. intros Hrun Hget Hcreate. revert Hrun.
  destruct (serve get s) as [found s1].
  destruct (answer_error get found) as [err|]; [destruct (IsNotFound err) |].
  - destruct (serve create s1) as [created s2].
    destruct (answer_error create created); intros [= <- <- <-]; by repeat constructor.
  - intros [= <- <- <-]. by repeat constructor.
  - intros [= <- <- <-]. by repeat constructor.
Qed.

Ltac observe_more :=
  unfold deployment_lookup, deployment_creates, failures in *; observe;
  repeat match goal with
         | H : ¬ (_ ≠ _) |- _ => apply dec_stable in H
         end.

Ltac finish_run_more := intros [= <- <- <-]; observe_more.

(** X7.  What [syncHandler] does with the answer of the Deployment lister:
    on NotFound it issues one Create, in the namespace named after the
    VirtualRouter, of [newDeployment] of that namespace and the intent; on
    any other error it returns that error and neither writes a Deployment
    or a status nor records an event; on a Deployment it creates none. *)
Theorem syncHandler_missing_deployment key (w : World S) out w' tr vr :
  sync key w = (out, w', tr) →
  fetched_virtualRouter tr = Some vr →
  let newNS := VirtualRouter.Name vr in
  match deployment_lookup tr with
  | Some (Err err) =>
      if IsNotFound err then
        deployment_creates tr = [CreateDeployment newNS (newDeployment SchemeGroupVersion newNS vr)]
      else
        out = Val (Some err) ∧ deployment_writes tr = [] ∧ status_writes tr = []
        ∧ events tr = []
  | Some (Ok _) => deployment_creates tr = []
  | None => deployment_writes tr = []
  end.
Proof.
  intros Hrun Hvr. revert Hrun.
  run_sync; finish_run_more;
    repeat match goal with
           | H : IsNotFound _ = _ |- _ => rewrite H; clear H
           end;
    done.
Qed.

Ltac failures_of_ensures :=
  repeat match goal with
         | H : ensure serve ?g ?c ?s = (_, _, ?t) |- _ =>
             let F := fresh "Hfailures" in
             pose proof (ensure_failures g c s _ _ t H eq_refl) as F;
             cbn beta iota in F; clear H
         end.

(** X8.  No error is swallowed: when [syncHandler] returns nil, the only
    calls of the run that were answered with an error are reads answered
    NotFound. *)
Theorem syncHandler_nil_hides_no_error key (w : World S) out w' tr :
  sync key w = (out, w', tr) →
  out = Val None →
  Forall (fun f => is_write f.1 = false ∧ IsNotFound f.2 = true) (failures tr).
Proof.
  run_sync; finish_run_more; intros Hnil; try discriminate;
    failures_of_ensures; rewrite ?Forall_app; repeat split; try done;
    by repeat constructor.
Qed.

(** X9.  An error returned by [syncHandler] ends the run: it is the error
    answered by the last call of the run, or it is the naming conflict, in
    which case the last call recorded the warning event. *)
Theorem syncHandler_error_is_last_call key (w : World S) out w' tr err :
  sync key w = (out, w', tr) →
  out = Val (Some err) →
  (∃ e r, last (calls tr) = Some e ∧ failed_call e = Some (r, err))
  ∨ (∃ vr name,
       let msg := Sprintf (Str MessageResourceExists) [Str name] in
       last (calls tr) = Some (Call (RecordEvent vr EventTypeWarning ErrResourceExists msg) tt)
       ∧ err = Errorf msg []).
Proof.
  run_sync; finish_run_more; intros Herr; simplify_eq;
    failures_of_ensures; unfold calls in *;
    rewrite ?List.filter_app; cbn [List.filter is_call];
    rewrite ?last_cons, ?last_app; cbn [last];
    repeat match goal with
           | H : ∃ e r, last _ = _ ∧ _ |- _ =>
               let e := fresh "e" in
               let r := fresh "r" in
               let Hlast := fresh "Hlast" in
               destruct H as (e & r & Hlast & ?); rewrite ?Hlast
           end;
    first [ left; eexists _, _; split; [reflexivity | first [reflexivity | eassumption]]
          | right; eexists _, _; split; reflexivity ].
Qed.

(** X10.  Once the intent is read and has a deploymentName, [syncHandler]
    returns nil exactly when it records the Normal event Synced against the
    intent, and it has then made exactly one status write. *)
Theorem syncHandler_success_event key (w : World S) out w' tr vr :
  sync key w = (out, w', tr) →
  fetched_virtualRouter tr = Some vr →
  VirtualRouterSpec.DeploymentName (VirtualRouter.Spec vr) ≠ EmptyString →
  (out = Val None
   ↔ events tr = [RecordEvent vr EventTypeNormal SuccessSynced (Str MessageResourceSynced)])
  ∧ (out = Val None → length (status_writes tr) = 1).
Proof.
  intros Hrun Hvr Hname. revert Hrun.
  run_sync; finish_run_more; try done; by (split; [split |]).
Qed.

(** X12.  Every call of [syncHandler] on a Namespace, ServiceAccount, Role,
    RoleBinding or Deployment names the namespace called after the
    VirtualRouter. *)
Theorem syncHandler_private_namespace key (w : World S) out w' tr vr :
  sync key w = (out, w', tr) →
  fetched_virtualRouter tr = Some vr →
  Forall (fun r => ∀ ns, target_namespace r = Some ns → ns = VirtualRouter.Name vr)
    (requests tr).
Proof.
  intros Hrun Hvr. revert Hrun.
  run_sync; finish_run_more;
    repeat match goal with
           | H : ensure serve ?g ?c ?s = (_, _, ?t) |- _ =>
               pose proof (ensure_requests_Forall
                             (fun r => ∀ ns, target_namespace r = Some ns
                                             → ns = VirtualRouter.Name vr)
                             g c s _ _ t H
                             ltac:(by intros ns [= <-]) ltac:(by intros ns [= <-]));
               clear H
           end;
    unfold requests in *;
    repeat first [ assumption
                 | apply Forall_nil_2
                 | apply Forall_cons_2; [intros ns Hns; cbn in Hns; by simplify_eq |]
                 | apply Forall_app; split ].
Qed.

(** X20.  Create and update share one projection: every Deployment that a
    run of [syncHandler] writes, created or updated, is [newDeployment] of
    the namespace named after the VirtualRouter and of the intent as read
    from the cache, written into that namespace; a run writes at most one
    Create and one Update. *)
Theorem syncHandler_deployment_writes key (w : World S) out w' tr vr :
  sync key w = (out, w', tr) →
  fetched_virtualRouter tr = Some vr →
  let newNS := VirtualRouter.Name vr in
  let desired := newDeployment SchemeGroupVersion newNS vr in
  Forall (fun r => r = CreateDeployment newNS desired ∨ r = UpdateDeployment newNS desired)
    (deployment_writes tr)
  ∧ (length (deployment_creates tr) ≤ 1)%nat
  ∧ (length (deployment_updates tr) ≤ 1)%nat.
Proof.
  intros Hrun Hvr. revert Hrun.
  run_sync; finish_run_more; (split; [repeat constructor; by eauto | split; lia]).
Qed.

(** X21.  The four ensure functions follow the Resource Ensurer of the
    design, each with its own Get and Create: given a valid pointer to the
    intent they return what [ensure] returns, leave the heap as it is and
    produce the entries of [ensure]. *)
Theorem ensure_functions_follow_design newNS p (w : World S) o vr :
  heap w !! p = Some (o, vr) →
  let lifted get create :=
    let '(e, s, t) := ensure' get create (server w) in (Val e, mkWorld s (heap w), t) in
  ensureVirtualRouterNamespace serve SchemeGroupVersion newNS p w
  = lifted (GetNamespace newNS) (CreateNamespace (namespaceFor SchemeGroupVersion newNS vr))
  ∧ ensureVirtualRouterSA serve SchemeGroupVersion newNS p w
    = lifted (GetServiceAccount newNS SERVICE_ACCOUNT_NAME)
        (CreateServiceAccount newNS (serviceAccountFor SchemeGroupVersion newNS vr))
  ∧ ensureVirtualRouterRole serve SchemeGroupVersion virtualrouter_GroupName newNS p w
    = lifted (GetRole newNS ROLE_NAME)
        (CreateRole newNS (roleFor SchemeGroupVersion virtualrouter_GroupName newNS vr))
  ∧ ensureVirtualRouterRoleBinding serve SchemeGroupVersion newNS p w
    = lifted (GetRoleBinding newNS ROLE_BINDING_NAME)
        (CreateRoleBinding newNS (roleBindingFor SchemeGroupVersion newNS vr)).
Proof.
  intros Hp. cbv zeta. repeat split.
  - by eapply ensureVirtualRouterNamespace_ensure.
  - by eapply ensureVirtualRouterSA_ensure.
  - by eapply ensureVirtualRouterRole_ensure.
  - by eapply ensureVirtualRouterRoleBinding_ensure.
Qed.

(** *** The worker *)

(** X13.  What one worker step adds to the run of [syncHandler]: no write
    and no event; and to the errors handed to HandleError, the wrapped error
    when [syncHandler] returned one, and nothing otherwise.  An item that is
    not a string is reported once, without any write. *)
Theorem processNextWorkItem_reports_errors (w : World S) out w' tr :
  processNextWorkItem serve SchemeGroupVersion virtualrouter_GroupName w = (out, w', tr) →
  let '(obj, shutdown, s1) := serve QueueGet (server w) in
  if shutdown : bool then error_logs tr = [] ∧ writes tr = []
  else
    match obj with
    | ObjString key =>
        let '(o, _, t) := sync key (mkWorld s1 (heap w)) in
        writes tr = writes t ∧ events tr = events t
        ∧ error_logs tr
          = error_logs t
            ++ match o with
               | Val (Some err) =>
                   [Errorf (Str "error syncing '%s': %s, requeuing") [Str key; Error err]]
               | _ => []
               end
    | _ => writes tr = [] ∧ length (error_logs tr) = 1
    end.
Proof.
  unfold processNextWorkItem. run_monad.
  destruct (serve QueueGet (server w)) as [[obj shutdown] s1]. run_monad.
  destruct shutdown; [by intros [= <- <- <-] |].
  destruct obj as [| | |key|]; run_monad.
  4:{ destruct (sync key _) as [[o w2] t] eqn:Hsync.
      unfold writes, events, error_logs.
      destruct o as [[err|]|reason]; run_monad; repeat run_step;
        intros [= <- <- <-]; cbn; rewrite ?omap_app; cbn; by rewrite ?app_nil_r. }
  all: repeat run_step; by intros [= <- <- <-].
Qed.

(** An observation that sees queue calls only sees nothing in a trace
    without queue calls. *)
Lemma omap_queue_free {A} (f : entry → option A) t :
  (∀ e, select is_queue_call e = None → f e = None) →
  queue_calls t = [] → omap f t = [].
Proof.
  intros Hf. unfold queue_calls. induction t as [|e t IH]; [done |]. cbn.
  destruct (select is_queue_call e) eqn:He; [done |]. intros Ht.
  by rewrite (Hf e He), IH.
Qed.

Lemma done_item_queue e : select is_queue_call e = None → done_item e = None.
Proof. by destruct e as [[] answer|l]. Qed.

Lemma got_item_queue e : select is_queue_call e = None → got_item e = None.
Proof. by destruct e as [[] answer|l]. Qed.

(** One worker step, as far as the queue's items go. *)
Lemma processNextWorkItem_items (w : World S) out w' tr :
  processNextWorkItem serve SchemeGroupVersion virtualrouter_GroupName w = (out, w', tr) →
  omap done_item tr = omap got_item tr
  ∧ (out = Val false → ∃ obj, tr = [Call QueueGet (obj, true)])
  ∧ (out = Val true → length (omap got_item tr) = 1).
Proof.
  unfold processNextWorkItem. run_monad.
  destruct (serve QueueGet (server w)) as [[obj shutdown] s1]. run_monad.
  destruct shutdown; [intros [= <- <- <-]; repeat split; [by eexists | done] |].
  destruct obj as [| | |key|]; run_monad.
  4:{ destruct (sync key _) as [[o w2] t] eqn:Hsync.
      apply syncHandler_queue_free in Hsync.
      pose proof (omap_queue_free done_item t done_item_queue Hsync) as Hdone.
      pose proof (omap_queue_free got_item t got_item_queue Hsync) as Hgot.
      destruct o as [[err|]|reason]; run_monad; repeat run_step;
        intros [= <- <- <-]; cbn; rewrite ?omap_app, Hdone, Hgot; by repeat split. }
  all: repeat run_step; intros [= <- <- <-]; by repeat split.
Qed.

(** X14.  In any run of the worker loop, the items released with Done are
    the items the queue handed out, one Done for each and in the same order,
    whether the syncs succeeded, failed or panicked. *)
Theorem runWorker_releases_every_item fuel (w : World S) out w' tr :
  runWorker serve SchemeGroupVersion virtualrouter_GroupName fuel w = (out, w', tr) →
  omap done_item tr = omap got_item tr.
Proof.
  revert w out w' tr. induction fuel as [|fuel IH]; intros w out w' tr; cbn [runWorker].
  - by intros [= <- <- <-].
  - unfold bind.
    destruct (processNextWorkItem _ _ _ w) as [[o1 w1] t1] eqn:Hstep.
    apply processNextWorkItem_items in Hstep as [Hitems _].
    destruct o1 as [[|]|reason]; [| by intros [= <- <- <-]; rewrite app_nil_r
                                  | by intros [= <- <- <-]].
    destruct (runWorker _ _ _ fuel w1) as [[o2 w2] t2] eqn:Hrest.
    apply IH in Hrest. intros [= <- <- <-]. by rewrite !omap_app, Hitems, Hrest.
Qed.

(** X15.  The worker loop ends by itself only when the queue reports
    shutdown, which is then the last entry of the run; when the rounds
    granted to the loop run out, each of them has taken an item: no outcome
    of a sync ends the loop. *)
Theorem runWorker_ends_only_at_shutdown fuel (w : World S) out w' tr :
  runWorker serve SchemeGroupVersion virtualrouter_GroupName fuel w = (out, w', tr) →
  (out = Val true → ∃ obj, last tr = Some (Call QueueGet (obj, true)))
  ∧ (out = Val false → length (omap got_item tr) = fuel).
Proof.
  revert w out w' tr. induction fuel as [|fuel IH]; intros w out w' tr; cbn [runWorker].
  - by intros [= <- <- <-].
  - unfold bind.
    destruct (processNextWorkItem _ _ _ w) as [[o1 w1] t1] eqn:Hstep.
    apply processNextWorkItem_items in Hstep as (_ & Hfalse & Htrue).
    destruct o1 as [[|]|reason]; [| | by intros [= <- <- <-]].
    + destruct (runWorker _ _ _ fuel w1) as [[o2 w2] t2] eqn:Hrest.
      apply IH in Hrest as [IHtrue IHfalse]. intros [= <- <- <-]. split.
      * intros Hout. destruct (IHtrue Hout) as [obj Hlast]. exists obj.
        rewrite last_app. by rewrite Hlast.
      * intros Hout. rewrite omap_app, length_app, (Htrue eq_refl), (IHfalse Hout). done.
    + destruct (Hfalse eq_refl) as [obj ->]. intros [= <- <- <-].
      split; [by exists obj | done].
Qed.

(** *** The projected objects *)

(** X16.  The Deployment [newDeployment] projects depends on the intent
    through its name, namespace, UID and spec only: the status, and with it
    the status write of [syncHandler], does not change it. *)
Theorem newDeployment_frame newNS (vr vr' : VirtualRouter.t) :
  VirtualRouter.Name vr = VirtualRouter.Name vr' →
  VirtualRouter.Namespace vr = VirtualRouter.Namespace vr' →
  VirtualRouter.GetUID vr = VirtualRouter.GetUID vr' →
  VirtualRouter.Spec vr = VirtualRouter.Spec vr' →
  newDeployment SchemeGroupVersion newNS vr = newDeployment SchemeGroupVersion newNS vr'.
Proof.
  intros Hname Hns Huid Hspec. unfold newDeployment, controllerRef, NewControllerRef.
  by rewrite Hname, Hns, Huid, Hspec.
Qed.

(** X17.  The objects the controller creates for one VirtualRouter refer to
    each other: the pods of the Deployment run under the service account
    that [ensureVirtualRouterSA] creates in the same namespace, the role
    binding binds that service account to the role that
    [ensureVirtualRouterRole] creates in that namespace, and the selector of
    the Deployment is the label set of its pod template. *)
Theorem created_objects_fit_together newNS (vr : VirtualRouter.t) :
  let d := newDeployment SchemeGroupVersion newNS vr in
  let sa := serviceAccountFor SchemeGroupVersion newNS vr in
  let role := roleFor SchemeGroupVersion virtualrouter_GroupName newNS vr in
  let rb := roleBindingFor SchemeGroupVersion newNS vr in
  let template := DeploymentSpec.Template (Deployment.Spec d) in
  PodSpec.ServiceAccountName (PodTemplateSpec.Spec template)
  = ObjectMeta.Name (ServiceAccount.Meta sa)
  ∧ ObjectMeta.Namespace (ServiceAccount.Meta sa) = ObjectMeta.Namespace (Deployment.Meta d)
  ∧ RoleRef.Kind (RoleBinding.RoleRef rb) = "Role"
  ∧ RoleRef.Name (RoleBinding.RoleRef rb) = ObjectMeta.Name (Role.Meta role)
  ∧ ObjectMeta.Namespace (RoleBinding.Meta rb) = ObjectMeta.Namespace (Role.Meta role)
  ∧ RoleBinding.Subjects rb
    = [Subject.mk "ServiceAccount" (ObjectMeta.Name (ServiceAccount.Meta sa))]
  ∧ ObjectMeta.Namespace (RoleBinding.Meta rb) = ObjectMeta.Namespace (ServiceAccount.Meta sa)
  ∧ DeploymentSpec.Selector (Deployment.Spec d)
    = Some (LabelSelector.mk (ObjectMeta.Labels (PodTemplateSpec.Meta template))).
Proof. by repeat split. Qed.

(** X18.  The conflict test of [syncHandler] on what the controller itself
    created goes by UID alone: the Deployment projected for one intent is
    controlled by another exactly when the two have the same UID, whatever
    their names. *)
Theorem created_deployment_controlled_by_uid newNS (vr owner : VirtualRouter.t) :
  IsControlledBy (Deployment.Meta (newDeployment SchemeGroupVersion newNS vr)) owner = true
  ↔ VirtualRouter.GetUID vr = VirtualRouter.GetUID owner.
Proof.
  unfold IsControlledBy, newDeployment. cbn. by rewrite bool_decide_eq_true.
Qed.

(** X19.  When the node selector entries of the intent have distinct keys,
    the node selector map of the pod holds exactly those entries. *)
Theorem newDeployment_distinct_node_selectors newNS (vr : VirtualRouter.t) :
  NoDup (NodeSelector.Key <$> VirtualRouterSpec.NodeSelector (VirtualRouter.Spec vr)) →
  ∀ k v,
    PodSpec.NodeSelector
      (PodTemplateSpec.Spec
         (DeploymentSpec.Template
            (Deployment.Spec (newDeployment SchemeGroupVersion newNS vr)))) !! k = Some v
    ↔ NodeSelector.mk k v ∈ VirtualRouterSpec.NodeSelector (VirtualRouter.Spec vr).
Proof.
  intros Hdistinct k v. unfold newDeployment. cbn. rewrite nodeSelectorMap_lookup. split.
  - intros [(l1 & l2 & -> & _) | [Hempty _]]; [| by rewrite lookup_empty in Hempty].
    apply elem_of_app. right. by left.
  - intros (l1 & l2 & Hsplit)%list_elem_of_split. left. exists l1, l2. split; [done |].
    rewrite Hsplit, fmap_app, fmap_cons in Hdistinct.
    apply NoDup_app in Hdistinct as (_ & _ & Hdistinct).
    by apply NoDup_cons in Hdistinct as [Hk _].
Qed.

End Properties.

(** * The scenarios, run on the in-memory store *)

Lemma run_eta {A} (run : outcome A * World Fake.t * list entry) :
  run = (run.1.1, run.1.2, run.2).
Proof. by destruct run as [[out w] tr]. Qed.

(** The three terminal conditions, each on the in-memory store. *)
Lemma syncHandler_terminal_conditions_witness :
  ((∃ e, SplitMetaNamespaceKey "a/b/c" = Err e)
   ∧ malformedSync.1.1 = Val None ∧ writes malformedSync.2 = []
   ∧ length (error_logs malformedSync.2) = 1)
  ∧ (deletedSync.1.1 = Val None ∧ writes deletedSync.2 = []
     ∧ length (error_logs deletedSync.2) = 1)
  ∧ (unnamedSync.1.1 = Val None ∧ writes unnamedSync.2 = []
     ∧ length (error_logs unnamedSync.2) = 1).
Proof.
  split; [split; [eexists; vm_compute; reflexivity |] | split].
  - apply (syncHandler_terminal_conditions Fake.serve exampleGroupVersion exampleGroupName
             "a/b/c" (start Fake.empty) _ _ _ (run_eta malformedSync)).
    left. eexists. vm_compute. reflexivity.
  - apply (syncHandler_terminal_conditions Fake.serve exampleGroupVersion exampleGroupName
             "default/r1" (start Fake.empty) _ _ _ (run_eta deletedSync)).
    right. left. eexists _, _, _. vm_compute. repeat split; reflexivity.
  - apply (syncHandler_terminal_conditions Fake.serve exampleGroupVersion exampleGroupName
             "default/r1" (start (storeWith (r1 EmptyString (Some 2%Z)))) _ _ _ (run_eta unnamedSync)).
    right. right. eexists _, _, _. vm_compute. repeat split; reflexivity.
Defined.

(** Scenario C on a namespace that lacks the supporting objects: the sync
    that ends in the conflict has created the service account, the role and
    the role binding. *)
Lemma foreign_deployment_sync_writes :
  fetched_deployment foreignSync.2 = Some foreignDeployment
  ∧ IsControlledBy (Deployment.Meta foreignDeployment) intent = false
  ∧ writes foreignSync.2
    = [ CreateServiceAccount "r1" (serviceAccountFor exampleGroupVersion "r1" intent);
        CreateRole "r1" (roleFor exampleGroupVersion exampleGroupName "r1" intent);
        CreateRoleBinding "r1" (roleBindingFor exampleGroupVersion "r1" intent) ]
  ∧ writes foreignSync.2 ≠ [].
Proof. vm_compute. repeat split; done. Qed.

Lemma syncHandler_foreign_deployment_witness :
  fetched_virtualRouter foreignSync.2 = Some intent
  ∧ fetched_deployment foreignSync.2 = Some foreignDeployment
  ∧ IsControlledBy (Deployment.Meta foreignDeployment) intent = false
  ∧ events foreignSync.2
    = [RecordEvent intent EventTypeWarning ErrResourceExists
         (Sprintf (Str MessageResourceExists) [Str "d1"])]
  ∧ foreignSync.1.1
    = Val (Some (Errorf (Sprintf (Str MessageResourceExists) [Str "d1"]) []))
  ∧ deployment_writes foreignSync.2 = []
  ∧ status_writes foreignSync.2 = []
  ∧ forallb is_supporting_create (writes foreignSync.2) = true
  ∧ (failed_reads foreignSync.2 = [] → writes foreignSync.2 = []).
Proof.
  assert (fetched_virtualRouter foreignSync.2 = Some intent) as Hvr
    by (vm_compute; reflexivity).
  assert (fetched_deployment foreignSync.2 = Some foreignDeployment) as Hd
    by (vm_compute; reflexivity).
  assert (IsControlledBy (Deployment.Meta foreignDeployment) intent = false) as Hforeign
    by (vm_compute; reflexivity).
  repeat (split; [assumption |]).
  exact (syncHandler_foreign_deployment Fake.serve exampleGroupVersion exampleGroupName
           "default/r1" (start foreignStore) _ _ _ intent foreignDeployment
           (run_eta foreignSync) Hvr Hd Hforeign).
Defined.




(** On the store that keeps a Deployment as it was written, the Deployment
    created for an intent without replicas has a nil Spec.Replicas; once the
    intent asks for 3 replicas, the sync panics. *)
Lemma syncHandler_nil_replicas_panics_witness :
  Fake.deployments (store_after unscaledSync) !! ("r1", "d1")
  = Some (newDeployment exampleGroupVersion "r1" (r1 "d1" None))
  ∧ DeploymentSpec.Replicas
      (Deployment.Spec (newDeployment exampleGroupVersion "r1" (r1 "d1" None))) = None
  ∧ lateScaleSync.1.1 = Panic nilDereference
  ∧ deployment_writes lateScaleSync.2 = []
  ∧ status_writes lateScaleSync.2 = [].
Proof.
  split; [vm_compute; reflexivity |]. split; [reflexivity |].
  apply (syncHandler_nil_replicas_panics Fake.serve exampleGroupVersion exampleGroupName
           "default/r1" _ _ _ _ (r1 "d1" (Some 3%Z))
           (newDeployment exampleGroupVersion "r1" (r1 "d1" None)) 3%Z
           (run_eta lateScaleSync));
    vm_compute; reflexivity.
Defined.







(** Scenario A: the status write of the first sync. *)
Lemma syncHandler_status_write_witness :
  (status_writes firstSync.2 = []
   ∨ ∃ vr d,
       fetched_virtualRouter firstSync.2 = Some vr
       ∧ managed_deployment firstSync.2 = Some d
       ∧ let copy := set_AvailableReplicas
                       (DeploymentStatus.AvailableReplicas (Deployment.Status d)) vr in
         status_writes firstSync.2 = [UpdateVirtualRouter (VirtualRouter.Namespace vr) copy]
         ∧ VirtualRouter.Meta copy = VirtualRouter.Meta vr
         ∧ VirtualRouter.Spec copy = VirtualRouter.Spec vr
         ∧ VirtualRouterStatus.AvailableReplicas (VirtualRouter.Status copy)
           = DeploymentStatus.AvailableReplicas (Deployment.Status d))
  ∧ (∀ p c, heap (start (storeWith intent)) !! p = Some c → heap firstSync.1.2 !! p = Some c)
  ∧ (∀ p vr, heap firstSync.1.2 !! p = Some (Cached, vr) →
             heap (start (storeWith intent)) !! p = Some (Cached, vr)
             ∨ fetched_virtualRouter firstSync.2 = Some vr).
Proof.
  exact (syncHandler_status_write Fake.serve exampleGroupVersion exampleGroupName
           "default/r1" (start (storeWith intent)) _ _ _ (run_eta firstSync)).
Defined.

(** One worker step on a queue that holds the key of r1. *)
Lemma processNextWorkItem_outcome_witness :
  workerStep.1.1 = Val true
  ∧ queue_calls workerStep.2
    = [QueueGet; QueueForget (ObjString "default/r1"); QueueDone (ObjString "default/r1")].
Proof.
  pose proof (processNextWorkItem_outcome Fake.serve exampleGroupVersion exampleGroupName
                _ _ _ _ (run_eta workerStep)) as Hstep.
  vm_compute in Hstep. vm_compute. exact Hstep.
Defined.

(** A resync of the VirtualRouter informer: old and new object are the same,
    and the key is enqueued all the same. *)
Lemma resync_of_intent_enqueues :
  ObjectMeta.ResourceVersion (VirtualRouter.Meta intent)
  = ObjectMeta.ResourceVersion (VirtualRouter.Meta intent)
  ∧ queue_calls
      (virtualRouter_UpdateFunc Fake.serve (ObjVirtualRouter intent) (ObjVirtualRouter intent)
         (start (storeWith intent))).2
    = [QueueAdd (ObjString "default/r1")].
Proof. vm_compute. by split. Qed.

(** A resync of a Deployment is dropped; the update of the Deployment
    projected for a VirtualRouter r1 living in namespace r1 is routed and
    enqueues the key of r1; an update of a VirtualRouter enqueues its key. *)
Lemma update_event_routing_witness :
  deployment_UpdateFunc Fake.serve (ObjDeployment foreignDeployment)
    (ObjDeployment foreignDeployment) (start foreignStore)
  = (Val tt, start foreignStore, [])
  ∧ homedDeploymentUpdate
    = handleObject Fake.serve
        (ObjDeployment (newDeployment exampleGroupVersion "r1" homedIntent))
        (start (storeWith homedIntent))
  ∧ (homedDeploymentUpdate.1.1 = Val tt
     ∧ owner_lookup_names homedDeploymentUpdate.2 = ["r1"]
     ∧ fetched_virtualRouter homedDeploymentUpdate.2 = Some homedIntent
     ∧ queue_calls homedDeploymentUpdate.2 = [QueueAdd (ObjString "r1/r1")])
  ∧ ∃ key, MetaNamespaceKeyFunc (ObjVirtualRouter intent) = Ok key
           ∧ requests
               (virtualRouter_UpdateFunc Fake.serve (ObjVirtualRouter intent)
                  (ObjVirtualRouter intent) (start (storeWith intent))).2
             = [QueueAdd (ObjString key)].
Proof.
  destruct (update_event_routing Fake.serve) as (Hsame & Hother & Hrouted & Hintent).
  split; [apply Hsame; reflexivity |].
  assert (homedDeploymentUpdate
          = handleObject Fake.serve
              (ObjDeployment (newDeployment exampleGroupVersion "r1" homedIntent))
              (start (storeWith homedIntent))) as Hupdate
    by (apply Hother; vm_compute; discriminate).
  split; [exact Hupdate |].
  split.
  - assert (fetched_virtualRouter homedDeploymentUpdate.2 = Some homedIntent) as Hvr
      by (vm_compute; reflexivity).
    destruct (Hrouted _ _ _ _ _ (eq_trans (eq_sym Hupdate) (run_eta homedDeploymentUpdate)))
      as [Hout Hcalls].
    cbn [GetControllerOf newDeployment Deployment.Meta ObjectMeta.OwnerReferences] in Hcalls.
    vm_compute in Hcalls. vm_compute. destruct Hcalls as (Hnames & key & [= <-] & Hqueue).
    vm_compute in Hout. by repeat split.
  - eapply Hintent. apply run_eta.
Defined.

(** Scenario A in full: the calls of the first sync, in order. *)
Example scenario_A_calls :
  firstSync.1.1 = Val None
  ∧ requests firstSync.2
    = [ ListerGetVirtualRouter "default" "r1";
        GetNamespace "r1";
        CreateNamespace (namespaceFor exampleGroupVersion "r1" intent);
        GetServiceAccount "r1" SERVICE_ACCOUNT_NAME;
        CreateServiceAccount "r1" (serviceAccountFor exampleGroupVersion "r1" intent);
        GetRole "r1" ROLE_NAME;
        CreateRole "r1" (roleFor exampleGroupVersion exampleGroupName "r1" intent);
        GetRoleBinding "r1" ROLE_BINDING_NAME;
        CreateRoleBinding "r1" (roleBindingFor exampleGroupVersion "r1" intent);
        ListerGetDeployment "r1" "d1";
        CreateDeployment "r1" (newDeployment exampleGroupVersion "r1" intent);
        UpdateVirtualRouter "default" intent;
        RecordEvent intent EventTypeNormal SuccessSynced (Str MessageResourceSynced) ].
Proof. vm_compute. by split. Qed.

(** A transient failure of the first Get: the sync returns the error after
    two calls and writes nothing. *)
Example outage_aborts_sync :
  outageSync.1.1 = Val (Some (StatusError StatusReasonUnknown "unavailable"))
  ∧ requests outageSync.2 = [ListerGetVirtualRouter "default" "r1"; GetNamespace "r1"]
  ∧ writes outageSync.2 = [].
Proof. vm_compute. by repeat split. Qed.

(** ** Witnesses of the further properties *)

Lemma enqueued_key_is_synced_witness :
  count_slash (VirtualRouter.Namespace intent) = 0
  ∧ count_slash (VirtualRouter.Name intent) = 0
  ∧ ∃ key,
      requests
        (enqueueVirtualRouter Fake.serve (ObjVirtualRouter intent) (start (storeWith intent))).2
      = [QueueAdd (ObjString key)]
      ∧ ∀ w2,
          head (requests (exampleSync key w2).2) = Some (ListerGetVirtualRouter "default" "r1").
Proof.
  split; [reflexivity |]. split; [reflexivity |].
  exact (enqueued_key_is_synced Fake.serve exampleGroupVersion exampleGroupName intent
           (start (storeWith intent)) _ _ _ eq_refl eq_refl (run_eta _)).
Defined.

Lemma enqueueVirtualRouter_effect_witness :
  let run := enqueueVirtualRouter Fake.serve (ObjString "default/r1") (start Fake.empty) in
  run.1.1 = Val tt ∧ heap run.1.2 = []
  ∧ requests run.2 = [] ∧ length (error_logs run.2) = 1 ∧ run.1.2 = start Fake.empty.
Proof.
  exact (enqueueVirtualRouter_effect Fake.serve (ObjString "default/r1") (start Fake.empty)
           _ _ _ (run_eta _)).
Defined.

Lemma handleObject_invalid_type_witness :
  ∃ err,
    handleObject Fake.serve
      (ObjDeletedFinalStateUnknown "default/r1" (ObjString "gone")) (start Fake.empty)
    = (Val tt, start Fake.empty, [Log (HandleError err)]).
Proof.
  apply (handleObject_invalid_type Fake.serve); [reflexivity |].
  by intros key inner [= <- <-].
Defined.

Lemma handleObject_tombstone_witness :
  let direct := handleObject Fake.serve (ObjDeployment foreignDeployment) (start foreignStore) in
  handleObject Fake.serve foreignTombstone (start foreignStore)
  = (direct.1.1, direct.1.2,
     Log (KlogInfo 4 (Sprintf (Str "Recovered deleted object '%s' from tombstone") [Str "d1"]))
     :: direct.2).
Proof.
  exact (handleObject_tombstone Fake.serve "r1/d1" (ObjDeployment foreignDeployment)
           (Deployment.Meta foreignDeployment) (start foreignStore) eq_refl).
Defined.

Lemma handleObject_effects_witness :
  createdDeploymentEvent.1.1 = Val tt
  ∧ forallb is_routing_call (requests createdDeploymentEvent.2) = true
  ∧ (length (queue_calls createdDeploymentEvent.2) ≤ 1)%nat
  ∧ writes createdDeploymentEvent.2 = []
  ∧ events createdDeploymentEvent.2 = [].
Proof.
  exact (handleObject_effects Fake.serve _ _ _ _ _ (run_eta createdDeploymentEvent)).
Defined.


Lemma syncHandler_missing_deployment_witness :
  fetched_virtualRouter firstSync.2 = Some intent
  ∧ deployment_lookup firstSync.2 = Some (Fake.notFound "d1")
  ∧ deployment_creates firstSync.2
    = [CreateDeployment "r1" (newDeployment exampleGroupVersion "r1" intent)].
Proof.
  assert (fetched_virtualRouter firstSync.2 = Some intent) as Hvr
    by (vm_compute; reflexivity).
  assert (deployment_lookup firstSync.2 = Some (Fake.notFound "d1")) as Hlookup
    by (vm_compute; reflexivity).
  repeat (split; [assumption |]).
  pose proof (syncHandler_missing_deployment Fake.serve exampleGroupVersion exampleGroupName
                "default/r1" _ _ _ _ intent (run_eta firstSync) Hvr) as Hcreate.
  cbv zeta in Hcreate. rewrite Hlookup in Hcreate. exact Hcreate.
Defined.

Lemma syncHandler_nil_hides_no_error_witness :
  firstSync.1.1 = Val None
  ∧ length (failures firstSync.2) = 5
  ∧ Forall (fun f => is_write f.1 = false ∧ IsNotFound f.2 = true) (failures firstSync.2).
Proof.
  assert (firstSync.1.1 = Val None) as Hnil by (vm_compute; reflexivity).
  split; [assumption |]. split; [vm_compute; reflexivity |].
  exact (syncHandler_nil_hides_no_error Fake.serve exampleGroupVersion exampleGroupName
           "default/r1" _ _ _ _ (run_eta firstSync) Hnil).
Defined.

Lemma syncHandler_error_is_last_call_witness :
  outageSync.1.1 = Val (Some (StatusError StatusReasonUnknown "unavailable"))
  ∧ ((∃ e r, last (calls outageSync.2) = Some e
             ∧ failed_call e = Some (r, StatusError StatusReasonUnknown "unavailable"))
     ∨ (∃ vr name,
          let msg := Sprintf (Str MessageResourceExists) [Str name] in
          last (calls outageSync.2)
          = Some (Call (RecordEvent vr EventTypeWarning ErrResourceExists msg) tt)
          ∧ StatusError StatusReasonUnknown "unavailable" = Errorf msg [])).
Proof.
  assert (outageSync.1.1 = Val (Some (StatusError StatusReasonUnknown "unavailable")))
    as Herr by (vm_compute; reflexivity).
  split; [assumption |].
  exact (syncHandler_error_is_last_call _ exampleGroupVersion exampleGroupName
           "default/r1" _ _ _ _ _ (run_eta outageSync) Herr).
Defined.

Lemma syncHandler_success_event_witness :
  fetched_virtualRouter firstSync.2 = Some intent
  ∧ (firstSync.1.1 = Val None
     ↔ events firstSync.2
       = [RecordEvent intent EventTypeNormal SuccessSynced (Str MessageResourceSynced)])
  ∧ (firstSync.1.1 = Val None → length (status_writes firstSync.2) = 1).
Proof.
  assert (fetched_virtualRouter firstSync.2 = Some intent) as Hvr
    by (vm_compute; reflexivity).
  split; [assumption |].
  apply (syncHandler_success_event Fake.serve exampleGroupVersion exampleGroupName
           "default/r1" _ _ _ _ intent (run_eta firstSync) Hvr).
  discriminate.
Defined.

Lemma syncHandler_panics_only_on_nil_replicas_witness :
  lateScaleSync.1.1 = Panic nilDereference
  ∧ ∃ vr d wanted,
      fetched_virtualRouter lateScaleSync.2 = Some vr
      ∧ managed_deployment lateScaleSync.2 = Some d
      ∧ VirtualRouterSpec.Replicas (VirtualRouter.Spec vr) = Some wanted
      ∧ DeploymentSpec.Replicas (Deployment.Spec d) = None.
Proof.
  assert (lateScaleSync.1.1 = Panic nilDereference) as Hpanic by (vm_compute; reflexivity).
  split; [assumption |].
  exact (proj2 (syncHandler_panics_only_on_nil_replicas Fake.serve exampleGroupVersion
                  exampleGroupName "default/r1" _ _ _ _ (run_eta lateScaleSync) _ Hpanic)).
Defined.

Lemma syncHandler_private_namespace_witness :
  fetched_virtualRouter firstSync.2 = Some intent
  ∧ Forall (fun r => ∀ ns, target_namespace r = Some ns → ns = "r1") (requests firstSync.2).
Proof.
  assert (fetched_virtualRouter firstSync.2 = Some intent) as Hvr
    by (vm_compute; reflexivity).
  split; [assumption |].
  exact (syncHandler_private_namespace Fake.serve exampleGroupVersion exampleGroupName
           "default/r1" _ _ _ _ intent (run_eta firstSync) Hvr).
Defined.

Lemma processNextWorkItem_reports_errors_witness :
  writes conflictWorkerStep.2 = writes foreignSync.2
  ∧ events conflictWorkerStep.2 = events foreignSync.2
  ∧ error_logs conflictWorkerStep.2
    = [Errorf (Str "error syncing '%s': %s, requeuing")
         [Str "default/r1";
          Sprintf (Sprintf (Str MessageResourceExists) [Str "d1"]) []]].
Proof.
  pose proof (processNextWorkItem_reports_errors Fake.serve exampleGroupVersion
                exampleGroupName _ _ _ _ (run_eta conflictWorkerStep)) as Hstep.
  vm_compute in Hstep. vm_compute. exact Hstep.
Defined.

Lemma runWorker_releases_every_item_witness :
  omap got_item workerRun.2 = [ObjString "default/r1"; ObjOther "item"]
  ∧ omap done_item workerRun.2 = omap got_item workerRun.2.
Proof.
  split; [vm_compute; reflexivity |].
  exact (runWorker_releases_every_item Fake.serve exampleGroupVersion exampleGroupName
           3 _ _ _ _ (run_eta workerRun)).
Defined.

Lemma runWorker_ends_only_at_shutdown_witness :
  (workerRun.1.1 = Val true
   ∧ ∃ obj, last workerRun.2 = Some (Call QueueGet (obj, true)))
  ∧ (shortWorkerRun.1.1 = Val false ∧ length (omap got_item shortWorkerRun.2) = 1).
Proof.
  split.
  - assert (workerRun.1.1 = Val true) as Hended by (vm_compute; reflexivity).
    split; [assumption |].
    exact (proj1 (runWorker_ends_only_at_shutdown Fake.serve exampleGroupVersion
                    exampleGroupName 3 _ _ _ _ (run_eta workerRun)) Hended).
  - assert (shortWorkerRun.1.1 = Val false) as Hcut by (vm_compute; reflexivity).
    split; [assumption |].
    exact (proj2 (runWorker_ends_only_at_shutdown Fake.serve exampleGroupVersion
                    exampleGroupName 1 _ _ _ _ (run_eta shortWorkerRun)) Hcut).
Defined.

Lemma newDeployment_frame_witness :
  newDeployment exampleGroupVersion "r1" intent
  = newDeployment exampleGroupVersion "r1" (set_AvailableReplicas 2 intent).
Proof.
  by apply (newDeployment_frame exampleGroupVersion "r1" intent (set_AvailableReplicas 2 intent)).
Defined.

Lemma newDeployment_distinct_node_selectors_witness :
  NoDup (NodeSelector.Key <$> VirtualRouterSpec.NodeSelector (VirtualRouter.Spec selectiveIntent))
  ∧ ∀ k v,
      PodSpec.NodeSelector
        (PodTemplateSpec.Spec
           (DeploymentSpec.Template
              (Deployment.Spec (newDeployment exampleGroupVersion "r1" selectiveIntent)))) !! k
      = Some v
      ↔ NodeSelector.mk k v ∈ [NodeSelector.mk "zone" "a"; NodeSelector.mk "disk" "ssd"].
Proof.
  assert (NoDup (NodeSelector.Key <$>
                   VirtualRouterSpec.NodeSelector (VirtualRouter.Spec selectiveIntent)))
    as Hdistinct by (apply (bool_decide_unpack _); vm_compute; exact I).
  split; [assumption |].
  exact (newDeployment_distinct_node_selectors exampleGroupVersion "r1" selectiveIntent Hdistinct).
Defined.

Lemma syncHandler_deployment_writes_witness :
  fetched_virtualRouter scaledSync.2 = Some (r1 "d1" (Some 3%Z))
  ∧ deployment_writes scaledSync.2
    = [UpdateDeployment "r1" (newDeployment exampleGroupVersion "r1" (r1 "d1" (Some 3%Z)))]
  ∧ Forall (fun r =>
              r = CreateDeployment "r1"
                    (newDeployment exampleGroupVersion "r1" (r1 "d1" (Some 3%Z)))
              ∨ r = UpdateDeployment "r1"
                      (newDeployment exampleGroupVersion "r1" (r1 "d1" (Some 3%Z))))
      (deployment_writes scaledSync.2)
  ∧ (length (deployment_creates scaledSync.2) ≤ 1)%nat
  ∧ (length (deployment_updates scaledSync.2) ≤ 1)%nat.
Proof.
  assert (fetched_virtualRouter scaledSync.2 = Some (r1 "d1" (Some 3%Z))) as Hvr
    by (vm_compute; reflexivity).
  split; [assumption |]. split; [vm_compute; reflexivity |].
  exact (syncHandler_deployment_writes Fake.serve exampleGroupVersion exampleGroupName
           "default/r1" _ _ _ _ _ (run_eta scaledSync) Hvr).
Defined.

Lemma ensure_functions_follow_design_witness :
  let w := mkWorld (storeWith intent) [(Cached, intent)] in
  (ensureVirtualRouterSA Fake.serve exampleGroupVersion "r1" 0 w).1.1 = Val None
  ∧ requests (ensureVirtualRouterSA Fake.serve exampleGroupVersion "r1" 0 w).2
    = [GetServiceAccount "r1" SERVICE_ACCOUNT_NAME;
       CreateServiceAccount "r1" (serviceAccountFor exampleGroupVersion "r1" intent)].
Proof.
  intros w.
  destruct (ensure_functions_follow_design Fake.serve exampleGroupVersion exampleGroupName
              "r1" 0 w Cached intent eq_refl) as (_ & -> & _).
  vm_compute. by split.
Defined.
